(** * buildSystem.py: removing and re-adding hydrogens with OpenMM

    A shallow embedding of [openmm/amberff/buildSystem.py].  The script is a
    straight line of top-level statements over module globals; it is
    modelled as a list of state transformers over a record of those globals
    together with the part of the world it touches (file system,
    environment variables, Python's random generator).  The OpenMM toolkit
    is an interface ([Toolkit]); the standard-library helpers the script
    calls ([os.path.splitext], [str.endswith], [os.path.isfile],
    [os.rename], [open]) are modelled after their documented behaviour. *)

From Stdlib Require Import Ascii QArith_base.
From stdpp Require Import gmap strings list fin_maps pretty.

Local Open Scope Z_scope.

(** ** Python strings *)

Module Py.

(** [s[:n]] and [s[n:]] for a non-negative index. *)
Fixpoint take (n : nat) (s : string) : string :=
  match n, s with
  | O, _ => ""
  | S _, EmptyString => ""
  | S n', String c s' => String c (take n' s')
  end.

Fixpoint drop (n : nat) (s : string) : string :=
  match n, s with
  | O, _ => s
  | S _, EmptyString => ""
  | S n', String _ s' => drop n' s'
  end.

Definition slice_to (s : string) (i : Z) : string := take (Z.to_nat i) s.
Definition slice_from (s : string) (i : Z) : string := drop (Z.to_nat i) s.
Definition slice (s : string) (i j : Z) : string :=
  take (Z.to_nat (j - i)) (drop (Z.to_nat i) s).

(** [s.rfind(c)]: index of the last occurrence of [c], or -1. *)
Fixpoint rfind_from (c : ascii) (s : string) (i last : Z) : Z :=
  match s with
  | EmptyString => last
  | String a s' => rfind_from c s' (i + 1) (if Ascii.eqb a c then i else last)
  end.

Definition rfind (s : string) (c : ascii) : Z := rfind_from c s 0 (-1).

(** [s.endswith(suffix)]. *)
Definition endswith (s suffix : string) : bool :=
  (String.length suffix <=? String.length s)%nat
  && String.eqb (drop (String.length s - String.length suffix) s) suffix.

(** [s.rstrip(c)]. *)
Fixpoint rstrip (c : ascii) (s : string) : string :=
  match s with
  | EmptyString => ""
  | String a s' =>
      match rstrip c s' with
      | EmptyString => if Ascii.eqb a c then "" else String a ""
      | r => String a r
      end
  end.

(** [c * len(s) == s]. *)
Fixpoint all_chars (c : ascii) (s : string) : bool :=
  match s with
  | EmptyString => true
  | String a s' => Ascii.eqb a c && all_chars c s'
  end.

(** [str(n)] for an integer. *)
Definition str_N (n : N) : string := pretty n.
Definition str_Z (z : Z) : string := pretty z.

(** Truthiness of a string and of an optional string. *)
Definition truthy (s : string) : bool := negb (String.eqb s "").
Definition truthy_opt (o : option string) : bool :=
  match o with Some s => truthy s | None => false end.

End Py.

(** ** [os.path] *)

Module OsPath.

(** [genericpath._splitext(p, '/', None, '.')]: the scan over the
    characters between the last separator and the last dot, looking for
    one that is not a dot. *)
Fixpoint splitext_scan (n : nat) (p : string) (filenameIndex dotIndex : Z)
  : bool :=
  match n with
  | O => false
  | S n' =>
      if filenameIndex <? dotIndex then
        if negb (String.eqb (Py.slice p filenameIndex (filenameIndex + 1)) ".")
        then true
        else splitext_scan n' p (filenameIndex + 1) dotIndex
      else false
  end.

Definition splitext (p : string) : string * string :=
  let sepIndex := Py.rfind p "/"%char in
  let dotIndex := Py.rfind p "."%char in
  if (sepIndex <? dotIndex)
     && splitext_scan (Z.to_nat (dotIndex - (sepIndex + 1))) p
          (sepIndex + 1) dotIndex
  then (Py.slice_to p dotIndex, Py.slice_from p dotIndex)
  else (p, "").

(** [posixpath.dirname]. *)
Definition dirname (p : string) : string :=
  let i := Py.rfind p "/"%char + 1 in
  let head := Py.slice_to p i in
  if Py.truthy head && negb (Py.all_chars "/"%char head)
  then Py.rstrip "/"%char head
  else head.

(** [posixpath.basename]. *)
Definition basename (p : string) : string :=
  Py.slice_from p (Py.rfind p "/"%char + 1).

End OsPath.

(** ** Exceptions *)

(** The exceptions that can end the run.  [ToolkitError] stands for whatever
    an OpenMM routine raises; [FileNameTooLong] is the [OSError] with errno
    36 ([ENAMETOOLONG]). *)
Inductive exn :=
| FileNotFoundError
| IsADirectoryError
| NotADirectoryError
| AttributeError
| TypeError
| NameError
| ToolkitError (msg : string)
| FileNameTooLong
| NotModelled.

(** ** The file system and the environment *)

Module Os.

(** A path names a regular file with its text, or a directory.  Paths are
    the strings the program spells; a relative path is relative to the
    working directory, which exists. *)
Inductive node :=
| File (content : string)
| Dir.

Abbreviation fsys := (gmap string node).
Abbreviation environment := (gmap string string).

(** [os.path.isfile]. *)
Definition isfile (fs : fsys) (p : string) : bool :=
  match fs !! p with
  | Some (File _) => true
  | _ => false
  end.

(** The directory a new entry [p] would be created in must exist: the
    working directory (empty [dirname]) and the root always do. *)
Definition parent_error (fs : fsys) (p : string) : option exn :=
  let d := OsPath.dirname p in
  if Py.all_chars "/"%char d then None
  else match fs !! d with
       | Some Dir => None
       | Some (File _) => Some NotADirectoryError
       | None => Some FileNotFoundError
       end.

(** The limits of Linux on the bytes of one path component and of a whole
    path (the latter counts the final zero byte). *)
Definition NAME_MAX : nat := 255.
Definition PATH_MAX : nat := 4096.

(** A new entry cannot be created under a name whose last component or
    whose whole length is beyond these limits. *)
Definition name_too_long (p : string) : bool :=
  (NAME_MAX <? String.length (OsPath.basename p))%nat
  || (PATH_MAX <=? String.length p)%nat.

(** [os.rename(src, dst)] for a regular file [src] (POSIX rename): fails
    when [src] is missing, when the directory of [dst] is missing, when
    [dst] is a directory, or when the name [dst] is too long; otherwise
    [dst] is silently replaced.  Renaming a directory moves a subtree and is
    left out: the script only renames a path for which [isfile] holds. *)
Definition rename (fs : fsys) (src dst : string) : exn + fsys :=
  match fs !! src with
  | None => inl FileNotFoundError
  | Some Dir => inl NotModelled
  | Some (File c) =>
      match parent_error fs dst with
      | Some e => inl e
      | None =>
          match fs !! dst with
          | Some Dir => inl IsADirectoryError
          | Some (File _) => inr (<[dst := File c]> (delete src fs))
          | None =>
              if name_too_long dst then inl FileNameTooLong
              else inr (<[dst := File c]> (delete src fs))
          end
      end
  end.

(** [open(p, 'w')]: creates the file, if its name is not too long, or
    truncates it. *)
Definition open_w (fs : fsys) (p : string) : exn + fsys :=
  if negb (Py.truthy p) then inl FileNotFoundError
  else match parent_error fs p with
       | Some e => inl e
       | None =>
           match fs !! p with
           | Some Dir => inl IsADirectoryError
           | Some (File _) => inr (<[p := File ""]> fs)
           | None =>
               if name_too_long p then inl FileNameTooLong
               else inr (<[p := File ""]> fs)
           end
       end.

(** Opening a file for reading, as the parsers do: its text. *)
Definition read (fs : fsys) (p : string) : exn + string :=
  match fs !! p with
  | Some (File c) => inr c
  | Some Dir => inl IsADirectoryError
  | None => inl FileNotFoundError
  end.

(** [os.getenv]. *)
Definition getenv (env : environment) (k : string) : option string := env !! k.

End Os.

(** ** [get_filename] (lines 31-46) *)

(** ['#{}.{}#'.format(rootname, num)] *)
Definition backup_name (rootname : string) (num : N) : string :=
  "#" +:+ rootname +:+ "." +:+ Py.str_N num +:+ "#".

Inductive result (A : Type) :=
| Ok (a : A)
| Raise (e : exn)
| OutOfFuel.
Arguments Ok {A} a.
Arguments Raise {A} e.
Arguments OutOfFuel {A}.

(** The [while 1] loop, with a bound on the number of probes; it yields the
    file system after the rename.  [OutOfFuel] means the bound was
    reached. *)
Fixpoint get_filename_loop (fuel : nat) (fs : Os.fsys) (rootname : string)
    (num : N) : result Os.fsys :=
  match fuel with
  | O => OutOfFuel
  | S fuel' =>
      let name := backup_name rootname num in
      if Os.isfile fs name
      then get_filename_loop fuel' fs rootname (num + 1)
      else match Os.rename fs rootname name with
           | inl e => Raise e
           | inr fs' => Ok fs'
           end
  end.

(** [get_filename_fuel fuel fs name]: the returned path and the file system
    after the call. *)
Definition get_filename_fuel (fuel : nat) (fs : Os.fsys) (name : string)
  : result (string * Os.fsys) :=
  if negb (Os.isfile fs name) then Ok (name, fs)
  else
    let rootname := name in
    match get_filename_loop fuel fs rootname 1 with
    | Ok fs' => Ok (rootname, fs')
    | Raise e => Raise e
    | OutOfFuel => OutOfFuel
    end.

(** A file system holds finitely many files, so one more probe than it has
    entries is enough ([get_filename_total] below). *)
Definition get_filename (fs : Os.fsys) (name : string)
  : result (string * Os.fsys) :=
  get_filename_fuel (S (size fs)) fs name.

(** ** The toolkit's data: topology, structure, modeller *)

(** An element is identified by its symbol; [app.element.hydrogen] is the
    element with symbol H.  An atom's element may be [None]. *)
Definition hydrogen : string := "H".

Record Atom := {
  atom_name : string;
  atom_element : option string;
  atom_residue : string;
  atom_chain : string;
  atom_id : string
}.

(** Atoms in the order of [topology.atoms()]; an atom object is referred to
    by its position in that order (its [index]).  Bonds join two indices. *)
Record Topology := {
  atoms : list Atom;
  bonds : list (nat * nat)
}.

Record Structure (V : Type) := {
  s_topology : Topology;
  s_positions : list V
}.
Arguments s_topology {V} _.
Arguments s_positions {V} _.

Record Modeller (V : Type) := {
  topology : Topology;
  positions : list V
}.
Arguments Build_Modeller {V} _ _.
Arguments topology {V} _.
Arguments positions {V} _.

(** [a.element == _elem_H] *)
Definition is_hydrogen (a : Atom) : bool :=
  match atom_element a with
  | Some e => String.eqb e hydrogen
  | None => false
  end.

(** [[a for a in modeller.topology.atoms() if a.element == _elem_H]], as the
    indices of the selected atoms; [i] is the index of the head of [l]. *)
Fixpoint hydrogens_from (i : nat) (l : list Atom) : list nat :=
  match l with
  | [] => []
  | a :: l' =>
      if is_hydrogen a then i :: hydrogens_from (S i) l'
      else hydrogens_from (S i) l'
  end.

Definition hydrogens_of {V} (m : Modeller V) : list nat :=
  hydrogens_from 0 (atoms (topology m)).

(** [Modeller.delete(toDelete)] for a list of atoms: the new topology keeps,
    in order, the atoms that are not in the set, with their positions, and
    the bonds whose two ends are both kept, renumbered. *)
Fixpoint keep_from {A} (del : nat → bool) (i : nat) (l : list A) : list A :=
  match l with
  | [] => []
  | x :: l' =>
      if del i then keep_from del (S i) l' else x :: keep_from del (S i) l'
  end.

Definition new_index (del : nat → bool) (i : nat) : nat :=
  length (keep_from del 0 (seq 0 i)).

Definition keep_bonds (del : nat → bool) (bs : list (nat * nat))
  : list (nat * nat) :=
  omap (λ b, if del b.1 || del b.2 then None
             else Some (new_index del b.1, new_index del b.2)) bs.

Definition Modeller_delete {V} (toDelete : list nat) (m : Modeller V)
  : Modeller V :=
  let del i := bool_decide (i ∈ toDelete) in
  {| topology := {| atoms := keep_from del 0 (atoms (topology m));
                    bonds := keep_bonds del (bonds (topology m)) |};
     positions := keep_from del 0 (positions m) |}.

(** ** The toolkit's routines *)

Inductive parser_class := PDBFile | PDBxFile.

(** What the script needs from OpenMM and from Python's [random] module.
    Every routine is a function of its arguments; [addHydrogens] also reads
    and advances the random state.  A parser is given the text of the file
    it is asked to open. *)
Class Toolkit := {
  Platform : Type;
  ForceField : Type;
  Vec3 : Type;
  RandomState : Type;
  random_seed : Z → RandomState;
  getPlatformByName : string → exn + Platform;
  getName : Platform → string;
  parse : parser_class → string → exn + Structure Vec3;
  load_forcefield : string → exn + ForceField;
  addHydrogens :
    ForceField → Q → Modeller Vec3 → RandomState →
    exn + (Modeller Vec3 * RandomState);
  writeFile : Topology → list Vec3 → exn + string
}.

(** ** The script's state *)

Inductive loglevel := INFO | ERROR.

Section Script.
Context {tk : Toolkit}.

(** What the command line gives: the positional argument and the options
    that were present. *)
Record CommandLine := {
  cl_structure : string;
  cl_output : option string;
  cl_forcefield : option string;
  cl_platform : option string;
  cl_seed : option Z
}.

(** The attribute [cmd.platform] holds [None], the name given on the
    command line, or (after line 71) a platform object. *)
Inductive platform_attr :=
| PNone
| PName (name : string)
| PObject (p : Platform).

(** The [argparse] namespace [cmd]. *)
Record Namespace := {
  structure : string;
  output : option string;
  forcefield : string;
  platform : platform_attr;
  seed : Z
}.

(** [ap.parse_args()] with the defaults of lines 53-62. *)
Definition parse_args (cl : CommandLine) : Namespace :=
  {| structure := cl_structure cl;
     output := cl_output cl;
     forcefield := default "amber99sbildn.xml" (cl_forcefield cl);
     platform := match cl_platform cl with
                 | Some n => PName n
                 | None => PNone
                 end;
     seed := default 917 (cl_seed cl) |}.

(** What the run does to the outside, in order. *)
Inductive event :=
| Log (level : loglevel) (msg : string)
| Call_seed (z : Z)
| Call_getPlatformByName (name : string)
| Call_parser (k : parser_class) (path : string)
| Call_ForceField (name : string)
| Call_delete (toDelete : list nat)
| Call_addHydrogens (ff : ForceField) (pH : Q)
| Call_open_w (path : string)
| Call_writeFile (top : Topology).

(** The module globals ([None]: not bound yet) and the world. *)
Record Globals := {
  g_cmd : Namespace;
  g_properties : option (gmap string string);
  g_platform_name : option string;
  g_fname : option string;
  g_fext : option string;
  g_parser : option parser_class;
  g_structure : option (Structure Vec3);
  g_forcefield : option ForceField;
  g_modeller : option (Modeller Vec3);
  g_hydrogens : option (list nat);
  g__fname : option string;
  g_cif_fname : option string;
  w_random : RandomState;
  w_environ : Os.environment;
  w_files : Os.fsys;
  w_trace : list event
}.

(** The state right after [cmd = ap.parse_args()] (line 64). *)
Definition initial (cl : CommandLine) (rnd : RandomState)
    (env : Os.environment) (fs : Os.fsys) : Globals :=
  {| g_cmd := parse_args cl;
     g_properties := None; g_platform_name := None;
     g_fname := None; g_fext := None; g_parser := None;
     g_structure := None; g_forcefield := None; g_modeller := None;
     g_hydrogens := None; g__fname := None; g_cif_fname := None;
     w_random := rnd; w_environ := env; w_files := fs; w_trace := [] |}.

Definition set_cmd (c : Namespace) (g : Globals) : Globals :=
  {| g_cmd := c;
     g_properties := g_properties g; g_platform_name := g_platform_name g;
     g_fname := g_fname g; g_fext := g_fext g; g_parser := g_parser g;
     g_structure := g_structure g; g_forcefield := g_forcefield g;
     g_modeller := g_modeller g; g_hydrogens := g_hydrogens g;
     g__fname := g__fname g; g_cif_fname := g_cif_fname g;
     w_random := w_random g; w_environ := w_environ g;
     w_files := w_files g; w_trace := w_trace g |}.

Definition set_properties (ps : gmap string string) (n : option string)
    (g : Globals) : Globals :=
  {| g_cmd := g_cmd g;
     g_properties := Some ps; g_platform_name := n;
     g_fname := g_fname g; g_fext := g_fext g; g_parser := g_parser g;
     g_structure := g_structure g; g_forcefield := g_forcefield g;
     g_modeller := g_modeller g; g_hydrogens := g_hydrogens g;
     g__fname := g__fname g; g_cif_fname := g_cif_fname g;
     w_random := w_random g; w_environ := w_environ g;
     w_files := w_files g; w_trace := w_trace g |}.

Definition set_splitext (root ext : string) (g : Globals) : Globals :=
  {| g_cmd := g_cmd g;
     g_properties := g_properties g; g_platform_name := g_platform_name g;
     g_fname := Some root; g_fext := Some ext; g_parser := g_parser g;
     g_structure := g_structure g; g_forcefield := g_forcefield g;
     g_modeller := g_modeller g; g_hydrogens := g_hydrogens g;
     g__fname := g__fname g; g_cif_fname := g_cif_fname g;
     w_random := w_random g; w_environ := w_environ g;
     w_files := w_files g; w_trace := w_trace g |}.

Definition set_parser (k : parser_class) (g : Globals) : Globals :=
  {| g_cmd := g_cmd g;
     g_properties := g_properties g; g_platform_name := g_platform_name g;
     g_fname := g_fname g; g_fext := g_fext g; g_parser := Some k;
     g_structure := g_structure g; g_forcefield := g_forcefield g;
     g_modeller := g_modeller g; g_hydrogens := g_hydrogens g;
     g__fname := g__fname g; g_cif_fname := g_cif_fname g;
     w_random := w_random g; w_environ := w_environ g;
     w_files := w_files g; w_trace := w_trace g |}.

Definition set_structure (s : Structure Vec3) (g : Globals) : Globals :=
  {| g_cmd := g_cmd g;
     g_properties := g_properties g; g_platform_name := g_platform_name g;
     g_fname := g_fname g; g_fext := g_fext g; g_parser := g_parser g;
     g_structure := Some s; g_forcefield := g_forcefield g;
     g_modeller := g_modeller g; g_hydrogens := g_hydrogens g;
     g__fname := g__fname g; g_cif_fname := g_cif_fname g;
     w_random := w_random g; w_environ := w_environ g;
     w_files := w_files g; w_trace := w_trace g |}.

Definition set_forcefield (ff : ForceField) (g : Globals) : Globals :=
  {| g_cmd := g_cmd g;
     g_properties := g_properties g; g_platform_name := g_platform_name g;
     g_fname := g_fname g; g_fext := g_fext g; g_parser := g_parser g;
     g_structure := g_structure g; g_forcefield := Some ff;
     g_modeller := g_modeller g; g_hydrogens := g_hydrogens g;
     g__fname := g__fname g; g_cif_fname := g_cif_fname g;
     w_random := w_random g; w_environ := w_environ g;
     w_files := w_files g; w_trace := w_trace g |}.

Definition set_modeller (m : Modeller Vec3) (g : Globals) : Globals :=
  {| g_cmd := g_cmd g;
     g_properties := g_properties g; g_platform_name := g_platform_name g;
     g_fname := g_fname g; g_fext := g_fext g; g_parser := g_parser g;
     g_structure := g_structure g; g_forcefield := g_forcefield g;
     g_modeller := Some m; g_hydrogens := g_hydrogens g;
     g__fname := g__fname g; g_cif_fname := g_cif_fname g;
     w_random := w_random g; w_environ := w_environ g;
     w_files := w_files g; w_trace := w_trace g |}.

Definition set_hydrogens (hs : list nat) (g : Globals) : Globals :=
  {| g_cmd := g_cmd g;
     g_properties := g_properties g; g_platform_name := g_platform_name g;
     g_fname := g_fname g; g_fext := g_fext g; g_parser := g_parser g;
     g_structure := g_structure g; g_forcefield := g_forcefield g;
     g_modeller := g_modeller g; g_hydrogens := Some hs;
     g__fname := g__fname g; g_cif_fname := g_cif_fname g;
     w_random := w_random g; w_environ := w_environ g;
     w_files := w_files g; w_trace := w_trace g |}.

Definition set__fname (n : string) (g : Globals) : Globals :=
  {| g_cmd := g_cmd g;
     g_properties := g_properties g; g_platform_name := g_platform_name g;
     g_fname := g_fname g; g_fext := g_fext g; g_parser := g_parser g;
     g_structure := g_structure g; g_forcefield := g_forcefield g;
     g_modeller := g_modeller g; g_hydrogens := g_hydrogens g;
     g__fname := Some n; g_cif_fname := g_cif_fname g;
     w_random := w_random g; w_environ := w_environ g;
     w_files := w_files g; w_trace := w_trace g |}.

Definition set_cif_fname (n : string) (g : Globals) : Globals :=
  {| g_cmd := g_cmd g;
     g_properties := g_properties g; g_platform_name := g_platform_name g;
     g_fname := g_fname g; g_fext := g_fext g; g_parser := g_parser g;
     g_structure := g_structure g; g_forcefield := g_forcefield g;
     g_modeller := g_modeller g; g_hydrogens := g_hydrogens g;
     g__fname := g__fname g; g_cif_fname := Some n;
     w_random := w_random g; w_environ := w_environ g;
     w_files := w_files g; w_trace := w_trace g |}.

Definition set_random (r : RandomState) (g : Globals) : Globals :=
  {| g_cmd := g_cmd g;
     g_properties := g_properties g; g_platform_name := g_platform_name g;
     g_fname := g_fname g; g_fext := g_fext g; g_parser := g_parser g;
     g_structure := g_structure g; g_forcefield := g_forcefield g;
     g_modeller := g_modeller g; g_hydrogens := g_hydrogens g;
     g__fname := g__fname g; g_cif_fname := g_cif_fname g;
     w_random := r; w_environ := w_environ g;
     w_files := w_files g; w_trace := w_trace g |}.

Definition set_files (fs : Os.fsys) (g : Globals) : Globals :=
  {| g_cmd := g_cmd g;
     g_properties := g_properties g; g_platform_name := g_platform_name g;
     g_fname := g_fname g; g_fext := g_fext g; g_parser := g_parser g;
     g_structure := g_structure g; g_forcefield := g_forcefield g;
     g_modeller := g_modeller g; g_hydrogens := g_hydrogens g;
     g__fname := g__fname g; g_cif_fname := g_cif_fname g;
     w_random := w_random g; w_environ := w_environ g;
     w_files := fs; w_trace := w_trace g |}.

(** Appends events to the trace. *)
Definition emit (es : list event) (g : Globals) : Globals :=
  {| g_cmd := g_cmd g;
     g_properties := g_properties g; g_platform_name := g_platform_name g;
     g_fname := g_fname g; g_fext := g_fext g; g_parser := g_parser g;
     g_structure := g_structure g; g_forcefield := g_forcefield g;
     g_modeller := g_modeller g; g_hydrogens := g_hydrogens g;
     g__fname := g__fname g; g_cif_fname := g_cif_fname g;
     w_random := w_random g; w_environ := w_environ g;
     w_files := w_files g; w_trace := w_trace g ++ es |}.

Definition info (msg : string) : event := Log INFO msg.

(** How a statement, or the run, ends: control goes on to the next
    statement, the interpreter exits ([sys.exit]), an exception is
    raised and never caught, or the probe bound of [get_filename] was
    reached. *)
Inductive outcome :=
| Running (g : Globals)
| Exited (code : Z) (g : Globals)
| Raised (e : exn) (g : Globals)
| Stuck (g : Globals).

Definition stmt := Globals → outcome.

(** Control reached the end of the statements run so far. *)
Definition running (o : outcome) : Prop :=
  match o with
  | Running _ => True
  | _ => False
  end.

Fixpoint exec (prog : list stmt) (g : Globals) : outcome :=
  match prog with
  | [] => Running g
  | st :: rest =>
      match st g with
      | Running g' => exec rest g'
      | o => o
      end
  end.

Definition final_state (o : outcome) : Globals :=
  match o with
  | Running g | Exited _ g | Raised _ g | Stuck g => g
  end.

(** The exit status of the process: 0 when the script runs to its end,
    the argument of [sys.exit], 1 for an uncaught exception. *)
Definition exit_status (o : outcome) : option Z :=
  match o with
  | Running _ => Some 0
  | Exited c _ => Some c
  | Raised _ _ => Some 1
  | Stuck _ => None
  end.

(** ** The statements of the script *)

(** Line 67: [random.seed(cmd.seed)]. *)
Definition stmt_seed : stmt := λ g,
  let z := seed (g_cmd g) in
  Running (emit [Call_seed z] (set_random (random_seed z) g)).

Definition with_platform (p : platform_attr) (c : Namespace) : Namespace :=
  {| structure := structure c; output := output c;
     forcefield := forcefield c; platform := p; seed := seed c |}.

(** Lines 70-71: [cmd.platform] is overwritten with the platform object.
    The lookup is given a name; a platform object is not one. *)
Definition stmt_platform : stmt := λ g,
  match platform (g_cmd g) with
  | PNone => Running g
  | PName n =>
      let g := emit [Call_getPlatformByName n] g in
      match getPlatformByName n with
      | inl e => Raised e g
      | inr p => Running (set_cmd (with_platform (PObject p) (g_cmd g)) g)
      end
  | PObject _ => Raised TypeError g
  end.

(** Lines 73-77. *)
Definition stmt_log_start : stmt := λ g,
  let c := g_cmd g in
  Running (emit [info "Started";
                 info "Using:";
                 info ("  initial structure: " +:+ structure c);
                 info ("  force field: " +:+ forcefield c);
                 info ("  random seed: " +:+ Py.str_Z (seed c))] g).

(** Lines 85-96: the properties chosen for a platform name. *)
Definition platform_properties (platform_name : string)
    (env : Os.environment) : gmap string string :=
  if String.eqb platform_name "CUDA" then
    let properties : gmap string string := {[ "CudaPrecision" := "mixed" ]} in
    match Os.getenv env "CUDA_VISIBLE_DEVICES" with
    | Some gpu_ids =>
        if Py.truthy gpu_ids then <["DeviceIndex" := gpu_ids]> properties
        else properties
    | None => properties
    end
  else if String.eqb platform_name "CPU" then
    match Os.getenv env "SLURM_CPUS_PER_TASK" with
    | Some cpu_threads =>
        if Py.truthy cpu_threads then <["Threads" := cpu_threads]> ∅
        else ∅
    | None => ∅
    end
  else ∅.

(** Lines 80-96.  [if cmd.platform:] holds for a platform object and for a
    non-empty string; a string has no [getName]. *)
Definition stmt_properties : stmt := λ g,
  let properties : gmap string string := ∅ in
  match platform (g_cmd g) with
  | PNone => Running (set_properties properties (g_platform_name g) g)
  | PName n =>
      let g := set_properties properties (g_platform_name g) g in
      if Py.truthy n then Raised AttributeError g else Running g
  | PObject p =>
      let platform_name := getName p in
      let g := emit [info ("  platform: " +:+ platform_name)] g in
      Running (set_properties
                 (platform_properties platform_name (w_environ g))
                 (Some platform_name) g)
  end.

(** Lines 100-106: the parser for an extension, if any. *)
Definition select_parser (fext : string) : option parser_class :=
  if String.eqb fext ".pdb" then Some PDBFile
  else if String.eqb fext ".cif" then Some PDBxFile
  else None.

Definition format_error : string :=
  "Format not supported: must be '.pdb' or '.cif'".

(** Lines 99-106. *)
Definition stmt_format : stmt := λ g,
  let '(fname, fext) := OsPath.splitext (structure (g_cmd g)) in
  let g := set_splitext fname fext g in
  match select_parser fext with
  | Some k => Running (set_parser k g)
  | None => Exited 1 (emit [Log ERROR format_error] g)
  end.

(** Lines 109-111. *)
Definition stmt_read : stmt := λ g,
  match g_parser g with
  | None => Raised NameError g
  | Some k =>
      let path := structure (g_cmd g) in
      let g := emit [Call_parser k path] g in
      match Os.read (w_files g) path with
      | inl e => Raised e g
      | inr text =>
          match parse k text with
          | inl e => Raised e g
          | inr s =>
              let g := set_structure s g in
              let name := forcefield (g_cmd g) in
              let g := emit [Call_ForceField name] g in
              match load_forcefield name with
              | inl e => Raised e g
              | inr ff =>
                  let g := set_forcefield ff g in
                  Running (set_modeller
                             (Build_Modeller (s_topology s) (s_positions s)) g)
              end
          end
      end
  end.

(** [pH=7.0] *)
Definition pH_7_0 : Q := 7 # 1.

(** Lines 114-119. *)
Definition stmt_hydrogens : stmt := λ g,
  let g := emit [info "Removing and re-adding hydrogen atoms"] g in
  match g_modeller g with
  | None => Raised NameError g
  | Some m =>
      let hydrogens := hydrogens_of m in
      let g := set_hydrogens hydrogens g in
      let m := Modeller_delete hydrogens m in
      let g := set_modeller m (emit [Call_delete hydrogens] g) in
      match g_forcefield g with
      | None => Raised NameError g
      | Some ff =>
          let g := emit [Call_addHydrogens ff pH_7_0] g in
          match addHydrogens ff pH_7_0 m (w_random g) with
          | inl e => Raised e g
          | inr (m', r) => Running (set_random r (set_modeller m' g))
          end
      end
  end.

(** Lines 122-128: [if cmd.output:] fails for [None] and for the empty
    string; [default_name] is only evaluated on that branch. *)
Definition output_fname (output : option string) (fname : string) : string :=
  match output with
  | Some o =>
      if Py.truthy o then
        if negb (Py.endswith o ".cif") then o +:+ ".cif" else o
      else fname +:+ "_H" +:+ ".cif"
  | None => fname +:+ "_H" +:+ ".cif"
  end.

Definition stmt_fname : stmt := λ g,
  let out := output (g_cmd g) in
  if Py.truthy_opt out then Running (set__fname (output_fname out "") g)
  else match g_fname g with
       | None => Raised NameError g
       | Some fname => Running (set__fname (output_fname out fname) g)
       end.

(** Lines 130-133. *)
Definition stmt_write : stmt := λ g,
  match g__fname g with
  | None => Raised NameError g
  | Some _fname =>
      match get_filename (w_files g) _fname with
      | OutOfFuel => Stuck g
      | Raise e => Raised e g
      | Ok (cif_fname, fs) =>
          let g := set_cif_fname cif_fname (set_files fs g) in
          let g := emit [info ("Writing structure to '" +:+ cif_fname +:+ "'")] g in
          let g := emit [Call_open_w cif_fname] g in
          match Os.open_w (w_files g) cif_fname with
          | inl e => Raised e g
          | inr fs =>
              let g := set_files fs g in
              match g_modeller g with
              | None => Raised NameError g
              | Some m =>
                  let g := emit [Call_writeFile (topology m)] g in
                  match writeFile (topology m) (positions m) with
                  | inl e => Raised e g
                  | inr text =>
                      Running (set_files (<[cif_fname := Os.File text]> (w_files g)) g)
                  end
              end
          end
      end
  end.

(** The script from line 67 on. *)
Definition script : list stmt :=
  [stmt_seed; stmt_platform; stmt_log_start; stmt_properties; stmt_format;
   stmt_read; stmt_hydrogens; stmt_fname; stmt_write].

Definition main (cl : CommandLine) (rnd : RandomState)
    (env : Os.environment) (fs : Os.fsys) : outcome :=
  exec script (initial cl rnd env fs).

(** The states the run goes through: after each prefix of the script. *)
Definition state_after (k : nat) (g0 : Globals) : outcome :=
  exec (firstn k script) g0.

End Script.

(** ** Notions used to state the properties *)

(** The case-insensitive reading of a suffix: ASCII letters folded to lower
    case, as [str.lower] does on them. *)
Definition lower_ascii (c : ascii) : ascii :=
  let n := nat_of_ascii c in
  if (65 <=? n)%nat && (n <=? 90)%nat then ascii_of_nat (n + 32) else c.

Fixpoint lower (s : string) : string :=
  match s with
  | EmptyString => ""
  | String c s' => String (lower_ascii c) (lower s')
  end.

(** The wording of the specification: the platforms of the toolkit that run
    on a GPU (the "GPU-class" platforms) are CUDA and OpenCL. *)
Definition gpu_class (platform_name : string) : bool :=
  String.eqb platform_name "CUDA" || String.eqb platform_name "OpenCL".

Section Relations.
Context {tk : Toolkit}.

(** The platform named on the command line, if any, is known to the
    toolkit. *)
Definition platform_resolves (cl : CommandLine) : Prop :=
  match cl_platform cl with
  | None => True
  | Some n => ∃ p, getPlatformByName n = inr p
  end.

(** A statement leaves an observation of the state alone, however it
    ends. *)
Definition preserves {A} (f : Globals → A) (st : stmt) : Prop :=
  ∀ g, f (final_state (st g)) = f g.

(** Two outcomes end the same way in states related by [R]. *)
Definition outcome_rel (R : Globals → Globals → Prop) (o1 o2 : outcome)
  : Prop :=
  match o1, o2 with
  | Running g1, Running g2 => R g1 g2
  | Exited c1 g1, Exited c2 g2 => c1 = c2 ∧ R g1 g2
  | Raised e1 g1, Raised e2 g2 => e1 = e2 ∧ R g1 g2
  | Stuck g1, Stuck g2 => R g1 g2
  | _, _ => False
  end.

Definition respects (R : Globals → Globals → Prop) (st : stmt) : Prop :=
  ∀ g1 g2, R g1 g2 → outcome_rel R (st g1) (st g2).

(** The globals bound between line 99 and line 130. *)
Definition work (g : Globals) :=
  (g_fname g, g_fext g, g_parser g, g_structure g, g_forcefield g,
   g_modeller g, g_hydrogens g, g__fname g, g_cif_fname g).

(** The fields of [cmd] other than [platform]. *)
Definition cli_fields (c : Namespace) :=
  (structure c, output c, forcefield c, seed c).

Definition platform_bound (c : Namespace) : Prop :=
  match platform c with
  | PName _ => False
  | _ => True
  end.

(** Two states that differ at most in the platform, the properties, the
    environment and the log. *)
Definition same_but_platform (g1 g2 : Globals) : Prop :=
  cli_fields (g_cmd g1) = cli_fields (g_cmd g2)
  ∧ platform_bound (g_cmd g1) ∧ platform_bound (g_cmd g2)
  ∧ work g1 = work g2
  ∧ w_random g1 = w_random g2
  ∧ w_files g1 = w_files g2.

(** Two states of runs with the same command line and the same input
    file: they may differ in the environment, the properties, the log and
    the rest of the file system. *)
Definition same_input (g1 g2 : Globals) : Prop :=
  g_cmd g1 = g_cmd g2
  ∧ work g1 = work g2
  ∧ w_random g1 = w_random g2
  ∧ w_files g1 !! structure (g_cmd g1) = w_files g2 !! structure (g_cmd g2).

(** The events of the lines before the structure is read. *)
Definition before_reading (e : event) : Prop :=
  match e with
  | Log _ _ | Call_seed _ | Call_getPlatformByName _ => True
  | _ => False
  end.

End Relations.

(** [c in s] *)
Fixpoint has_char (c : ascii) (s : string) : bool :=
  match s with
  | EmptyString => false
  | String a s' => Ascii.eqb a c || has_char c s'
  end.

(** ** A small stand-in toolkit, for running the script on examples *)

Module Toy.

Definition known_platforms : list string :=
  ["Reference"; "CPU"; "CUDA"; "OpenCL"].

Definition lookup_platform (n : string) : exn + string :=
  if bool_decide (n ∈ known_platforms) then inr n
  else inl (ToolkitError "There is no registered Platform with that name").

(** One atom per character of the file; the character is its element. *)
Fixpoint atoms_of_text (s : string) : list Atom :=
  match s with
  | EmptyString => []
  | String c s' =>
      {| atom_name := String c ""; atom_element := Some (String c "");
         atom_residue := "RES"; atom_chain := "A"; atom_id := "0" |}
      :: atoms_of_text s'
  end.

Definition parse_text (k : parser_class) (text : string)
  : exn + Structure (Z * Z * Z) :=
  inr {| s_topology := {| atoms := atoms_of_text text; bonds := [] |};
         s_positions := (λ i, (Z.of_nat i, 0, 0)) <$> seq 0 (String.length text) |}.

Definition new_hydrogen : Atom :=
  {| atom_name := "H1"; atom_element := Some hydrogen;
     atom_residue := "RES"; atom_chain := "A"; atom_id := "1" |}.

(** Adds one hydrogen, placed with the random state. *)
Definition add_hydrogens (ff : string) (pH : Q) (m : Modeller (Z * Z * Z))
    (r : Z) : exn + (Modeller (Z * Z * Z) * Z) :=
  inr ({| topology := {| atoms := atoms (topology m) ++ [new_hydrogen];
                         bonds := bonds (topology m) |};
          positions := positions m ++ [(r, 0, 0)] |}, r + 1).

Fixpoint symbols (l : list Atom) : string :=
  match l with
  | [] => ""
  | a :: l' => default "?" (atom_element a) +:+ symbols l'
  end.

Definition write_file (top : Topology) (pos : list (Z * Z * Z))
  : exn + string :=
  inr (symbols (atoms top)).

Definition toolkit : Toolkit :=
  {| Platform := string;
     ForceField := string;
     Vec3 := Z * Z * Z;
     RandomState := Z;
     random_seed := λ z, z;
     getPlatformByName := lookup_platform;
     getName := λ p, p;
     parse := parse_text;
     load_forcefield := λ n, inr n;
     addHydrogens := add_hydrogens;
     writeFile := write_file |}.

Definition command_line (struct : string) (out plat : option string)
  : @CommandLine :=
  {| cl_structure := struct; cl_output := out; cl_forcefield := None;
     cl_platform := plat; cl_seed := None |}.

End Toy.

(** ** Concrete inputs used in the examples *)

Module Inputs.

(** An earlier output [out/bar.cif] in a directory [out]; the input
    structure [in.pdb] has one carbon and two hydrogens. *)
Definition nested_fs : Os.fsys :=
  {[ "in.pdb" := Os.File "CHH"; "out" := Os.Dir;
     "out/bar.cif" := Os.File "old" ]}.

(** The same with the earlier output in the working directory. *)
Definition flat_fs : Os.fsys :=
  {[ "in.pdb" := Os.File "CHH"; "bar.cif" := Os.File "old";
     "#bar.cif.1#" := Os.File "older" ]}.

Definition no_env : Os.environment := ∅.

Definition slurm_env : Os.environment :=
  {[ "CUDA_VISIBLE_DEVICES" := "0,1"; "SLURM_CPUS_PER_TASK" := "8" ]}.

End Inputs.

Module MoreInputs.

(** A directory bears the name of the output. *)
Definition dir_fs : Os.fsys :=
  {[ "in.pdb" := Os.File "CHH"; "bar.cif" := Os.Dir ]}.

End MoreInputs.

(** * Properties *)

(** ** Strings and paths *)

Example splitext_foo : OsPath.splitext "foo.pdb" = ("foo", ".pdb").
Proof. reflexivity. Qed.

Example splitext_dir_dot : OsPath.splitext "a.b/c" = ("a.b/c", "").
Proof. reflexivity. Qed.

Example splitext_hidden : OsPath.splitext "dir/.pdb" = ("dir/.pdb", "").
Proof. reflexivity. Qed.

Example splitext_last_dot : OsPath.splitext "..x.tar.gz" = ("..x.tar", ".gz").
Proof. reflexivity. Qed.

Example dirname_backup : OsPath.dirname "#out/bar.cif.1#" = "#out".
Proof. reflexivity. Qed.

Example dirname_plain : OsPath.dirname "#bar.cif.1#" = "".
Proof. reflexivity. Qed.

Example backup_name_12 : backup_name "bar.cif" 12 = "#bar.cif.12#".
Proof. reflexivity. Qed.

Section Strings.

Lemma str_length_app (p s : string) :
  String.length (p +:+ s) = (String.length p + String.length s)%nat.
Proof. induction p as [|a p IH]; simpl; [done | by rewrite IH]. Qed.

Lemma str_app_cons (a : ascii) (p s : string) :
  String a p +:+ s = String a (p +:+ s).
Proof. reflexivity. Qed.

Lemma str_take_drop (n : nat) (s : string) : Py.take n s +:+ Py.drop n s = s.
Proof.
  revert s. induction n as [|n IH]; intros [|a s]; try reflexivity.
  change (String a (Py.take n s) +:+ Py.drop n s = String a s).
  by rewrite str_app_cons, IH.
Qed.

Lemma str_drop_app (p s : string) : Py.drop (String.length p) (p +:+ s) = s.
Proof. induction p as [|a p IH]; simpl; [by destruct s | done]. Qed.

Lemma str_drop_suffix (p s : string) :
  Py.drop (String.length (p +:+ s) - String.length s) (p +:+ s) = s.
Proof.
  rewrite str_length_app.
  replace (String.length p + String.length s - String.length s)%nat
    with (String.length p) by lia.
  apply str_drop_app.
Qed.

Lemma str_app_assoc (a b c : string) : (a +:+ b) +:+ c = a +:+ b +:+ c.
Proof. induction a as [|x a IH]; [done | by rewrite !str_app_cons, IH]. Qed.

Lemma str_app_empty_r (a : string) : a +:+ "" = a.
Proof. induction a as [|x a IH]; [done | by rewrite str_app_cons, IH]. Qed.

(** [endswith] is suffix matching. *)
Lemma endswith_app (p suffix : string) : Py.endswith (p +:+ suffix) suffix = true.
Proof.
  unfold Py.endswith. rewrite str_drop_suffix, String.eqb_refl, andb_true_r.
  apply Nat.leb_le. rewrite str_length_app. lia.
Qed.

Lemma endswith_inv (s suffix : string) :
  Py.endswith s suffix = true → ∃ p, s = p +:+ suffix.
Proof.
  unfold Py.endswith. intros [_ H%String.eqb_eq]%andb_true_iff.
  set (n := (String.length s - String.length suffix)%nat) in *.
  exists (Py.take n s). rewrite <- H. symmetry. apply str_take_drop.
Qed.

(** Against a tail of the same length, [endswith] is equality with it. *)
Lemma endswith_same_length (p s suffix : string) :
  String.length s = String.length suffix →
  Py.endswith (p +:+ s) suffix = String.eqb s suffix.
Proof.
  intros Hlen. unfold Py.endswith. rewrite <- Hlen, str_drop_suffix.
  replace (String.length s <=? String.length (p +:+ s))%nat with true; [done|].
  symmetry. apply Nat.leb_le. rewrite str_length_app. lia.
Qed.

Lemma str_app_inj_r (a b c : string) : a +:+ c = b +:+ c → a = b.
Proof.
  intros H.
  assert (Hlen : String.length a = String.length b).
  { apply (f_equal String.length) in H. rewrite !str_length_app in H. lia. }
  revert b H Hlen. induction a as [|x a IH]; intros [|y b] H Hlen;
    simplify_eq/=; [done|].
  f_equal. by apply IH.
Qed.

End Strings.

(** ** [get_filename] *)

Section GetFilename.
Implicit Types (fs : Os.fsys) (name rootname : string) (num : N).

Lemma isfile_lookup fs p :
  Os.isfile fs p = true ↔ ∃ c, fs !! p = Some (Os.File c).
Proof.
  unfold Os.isfile. destruct (fs !! p) as [[c|]|]; split;
    try done; try (intros [? [=]]); eauto.
Qed.

Lemma backup_name_inj rootname : Inj (=) (=) (backup_name rootname).
Proof.
  intros n m H. unfold backup_name, Py.str_N in H.
  do 3 apply (inj (String.app _)) in H.
  apply str_app_inj_r in H. by apply (inj pretty) in H.
Qed.

Lemma backup_name_ne rootname num : backup_name rootname num ≠ rootname.
Proof.
  intros H. apply (f_equal String.length) in H.
  unfold backup_name in H. rewrite !str_length_app in H. simpl in H. lia.
Qed.

(** The loop stops at the first number whose backup name is not a file,
    and renames there. *)
Lemma get_filename_loop_spec fuel fs rootname num :
  get_filename_loop fuel fs rootname num ≠ OutOfFuel →
  ∃ n, (num ≤ n)%N
       ∧ Os.isfile fs (backup_name rootname n) = false
       ∧ (∀ m, (num ≤ m < n)%N → Os.isfile fs (backup_name rootname m) = true)
       ∧ get_filename_loop fuel fs rootname num =
           match Os.rename fs rootname (backup_name rootname n) with
           | inl e => Raise e
           | inr fs' => Ok fs'
           end.
Proof.
  revert num. induction fuel as [|fuel IH]; intros num; simpl; [done|].
  destruct (Os.isfile fs (backup_name rootname num)) eqn:Hf.
  - intros Hne. destruct (IH _ Hne) as (n & Hle & Hfree & Hbelow & Heq).
    exists n. split_and!; [lia | done | | done].
    intros m Hm. destruct (decide (m = num)) as [->|]; [done|].
    apply Hbelow. lia.
  - intros _. exists num. split_and!; [lia | done | | done].
    intros m Hm. lia.
Qed.

Lemma get_filename_loop_enough fuel fs rootname num n :
  (num ≤ n < num + N.of_nat fuel)%N →
  Os.isfile fs (backup_name rootname n) = false →
  get_filename_loop fuel fs rootname num ≠ OutOfFuel.
Proof.
  revert num. induction fuel as [|fuel IH]; intros num Hn Hfree; [lia|].
  simpl. destruct (Os.isfile fs (backup_name rootname num)) eqn:Hf.
  - apply IH; [|done].
    destruct (decide (n = num)) as [->|]; [congruence | lia].
  - by destruct (Os.rename _ _ _).
Qed.

(** Among [size fs + 1] distinct names, one is not in the file system. *)
Lemma free_backup_name fs rootname :
  ∃ n, (1 ≤ n < 1 + N.of_nat (S (size fs)))%N
       ∧ Os.isfile fs (backup_name rootname n) = false.
Proof.
  set (l := (λ k, backup_name rootname (N.of_nat k)) <$> seq 1 (S (size fs))).
  destruct (decide (Forall (λ p, Os.isfile fs p = true) l)) as [Hall|Hex].
  - exfalso.
    assert (Hsub : list_to_set (C := gset string) l ⊆ dom fs).
    { intros p Hp%elem_of_list_to_set. rewrite Forall_forall in Hall.
      apply Hall, isfile_lookup in Hp as [c Hc]. apply elem_of_dom. eauto. }
    apply subseteq_size in Hsub.
    rewrite size_list_to_set, size_dom in Hsub.
    + unfold l in Hsub. rewrite length_fmap, length_seq in Hsub. lia.
    + apply NoDup_fmap_2; [|apply NoDup_seq].
      intros j k Hjk%backup_name_inj. lia.
  - apply not_Forall_Exists in Hex; [|apply _].
    apply Exists_exists in Hex as (p & Hp & Hnf).
    apply list_elem_of_fmap in Hp as (k & -> & Hk%elem_of_seq).
    exists (N.of_nat k). split; [lia|]. by apply not_true_is_false.
Qed.

(** The loop of [get_filename] always ends. *)
Lemma get_filename_total fs name : get_filename fs name ≠ OutOfFuel.
Proof.
  unfold get_filename, get_filename_fuel.
  destruct (Os.isfile fs name); cbn [negb]; [|discriminate].
  destruct (free_backup_name fs name) as (n & Hn & Hfree).
  pose proof (get_filename_loop_enough (S (size fs)) fs name 1 n Hn Hfree).
  by destruct (get_filename_loop _ _ _ _).
Qed.

(** No file at the path: it is returned, and nothing is touched. *)
Lemma get_filename_absent fs name :
  Os.isfile fs name = false → get_filename fs name = Ok (name, fs).
Proof. intros H. unfold get_filename, get_filename_fuel. by rewrite H. Qed.

(** A file at the path: the first free backup name is found and the
    rename is attempted there. *)
Lemma get_filename_present fs name :
  Os.isfile fs name = true →
  ∃ n, (1 ≤ n)%N
       ∧ Os.isfile fs (backup_name name n) = false
       ∧ (∀ m, (1 ≤ m < n)%N → Os.isfile fs (backup_name name m) = true)
       ∧ get_filename fs name =
           match Os.rename fs name (backup_name name n) with
           | inl e => Raise e
           | inr fs' => Ok (name, fs')
           end.
Proof.
  intros H. pose proof (get_filename_total fs name) as Htot.
  unfold get_filename, get_filename_fuel in *. rewrite H in *. cbn [negb] in *.
  destruct (get_filename_loop_spec (S (size fs)) fs name 1)
    as (n & Hle & Hfree & Hbelow & Heq).
  { intros Hout. by rewrite Hout in Htot. }
  exists n. split_and!; [done..|]. rewrite Heq.
  by destruct (Os.rename _ _ _).
Qed.

Lemma rename_file fs src dst c :
  fs !! src = Some (Os.File c) →
  Os.parent_error fs dst = None →
  fs !! dst ≠ Some Os.Dir →
  Os.name_too_long dst = false →
  Os.rename fs src dst = inr (<[dst := Os.File c]> (delete src fs)).
Proof.
  intros Hsrc Hpar Hdst Hlong. unfold Os.rename. rewrite Hsrc, Hpar, Hlong.
  by destruct (fs !! dst) as [[?|]|].
Qed.

(** The first free backup name is among the first [size fs + 1]. *)
Lemma get_filename_present_bounded fs name :
  Os.isfile fs name = true →
  ∃ n, (1 ≤ n ≤ N.of_nat (S (size fs)))%N
       ∧ Os.isfile fs (backup_name name n) = false
       ∧ (∀ m, (1 ≤ m < n)%N → Os.isfile fs (backup_name name m) = true)
       ∧ get_filename fs name =
           match Os.rename fs name (backup_name name n) with
           | inl e => Raise e
           | inr fs' => Ok (name, fs')
           end.
Proof.
  intros H.
  destruct (get_filename_present fs name H) as (n & Hle & Hfree & Hbelow & Heq).
  destruct (free_backup_name fs name) as (n0 & Hn0 & Hfree0).
  exists n. split_and!; [done| |done..].
  destruct (decide (n ≤ n0)%N) as [?|Hgt]; [lia|].
  rewrite Hbelow in Hfree0 by lia. done.
Qed.

(** When the rename is possible (for the backup names the loop can reach:
    their directory exists, none of them is a directory, none is too long),
    the old file ends up under the first free backup name, the path itself
    is free, and every other path is as before. *)
Lemma get_filename_backup fs name c :
  fs !! name = Some (Os.File c) →
  (∀ n, (1 ≤ n ≤ N.of_nat (S (size fs)))%N →
        Os.parent_error fs (backup_name name n) = None
        ∧ fs !! backup_name name n ≠ Some Os.Dir
        ∧ Os.name_too_long (backup_name name n) = false) →
  ∃ n fs',
    (1 ≤ n ≤ N.of_nat (S (size fs)))%N
    ∧ fs !! backup_name name n = None
    ∧ (∀ m, (1 ≤ m < n)%N → Os.isfile fs (backup_name name m) = true)
    ∧ get_filename fs name = Ok (name, fs')
    ∧ fs' !! name = None
    ∧ fs' !! backup_name name n = Some (Os.File c)
    ∧ (∀ p, p ≠ name → p ≠ backup_name name n → fs' !! p = fs !! p).
Proof.
  intros Hname Hcan.
  destruct (get_filename_present_bounded fs name)
    as (n & Hle & Hfree & Hbelow & Heq).
  { apply isfile_lookup. eauto. }
  destruct (Hcan n Hle) as (Hpar & Hdir & Hlong).
  rewrite (rename_file _ _ _ c) in Heq by done.
  pose proof (backup_name_ne name n) as Hne.
  eexists n, _. split; [exact Hle|]. split_and!; [|done|done|..].
  - unfold Os.isfile in Hfree.
    by destruct (fs !! backup_name name n) as [[?|]|].
  - rewrite lookup_insert_ne by done. apply lookup_delete_eq.
  - apply lookup_insert_eq.
  - intros p Hp1 Hp2. rewrite lookup_insert_ne by done.
    by rewrite lookup_delete_ne.
Qed.

End GetFilename.

(** [get_filename] on small file systems. *)
Example get_filename_flat :
  get_filename Inputs.flat_fs "bar.cif"
  = Ok ("bar.cif",
        {[ "in.pdb" := Os.File "CHH"; "#bar.cif.2#" := Os.File "old";
           "#bar.cif.1#" := Os.File "older" ]}).
Proof. reflexivity. Qed.

Example get_filename_new :
  get_filename Inputs.flat_fs "new.cif" = Ok ("new.cif", Inputs.flat_fs).
Proof. reflexivity. Qed.

(** In the working directory the earlier output is kept under the first
    free backup name and the new text is written at the path itself. *)
Example toy_run_backup :
  let o := @main Toy.toolkit (Toy.command_line "in.pdb" (Some "bar") None)
             0 Inputs.no_env Inputs.flat_fs in
  exit_status o = Some 0
  ∧ g_cif_fname (final_state o) = Some "bar.cif"
  ∧ w_files (final_state o)
    = {[ "in.pdb" := Os.File "CHH"; "bar.cif" := Os.File "CH";
         "#bar.cif.1#" := Os.File "older"; "#bar.cif.2#" := Os.File "old" ]}.
Proof. repeat apply conj; reflexivity. Qed.


(** ** Removing the hydrogens *)

Section Hydrogens.

Lemma hydrogens_from_elem (k : nat) (l : list Atom) (i : nat) :
  i ∈ hydrogens_from k l
  ↔ (k ≤ i)%nat ∧ ∃ a, l !! (i - k)%nat = Some a ∧ is_hydrogen a = true.
Proof.
  revert k. induction l as [|a l IH]; intros k; simpl.
  - split; [by intros ?%elem_of_nil | by intros (_ & ? & ? & _)].
  - assert (Hrest : i ∈ hydrogens_from (S k) l
                    ↔ (k < i)%nat ∧ ∃ b, (a :: l) !! (i - k)%nat = Some b
                                         ∧ is_hydrogen b = true).
    { rewrite IH. split.
      - intros (Hle & b & Hb & HH). split; [lia|]. exists b. split; [|done].
        by replace (i - k)%nat with (S (i - S k)) by lia.
      - intros (Hlt & b & Hb & HH). split; [lia|]. exists b. split; [|done].
        by replace (i - k)%nat with (S (i - S k)) in Hb by lia. }
    destruct (is_hydrogen a) eqn:Ha.
    + rewrite elem_of_cons, Hrest. split.
      * intros [->|(Hlt & b & Hb & HH)].
        -- split; [lia|]. exists a. by rewrite Nat.sub_diag.
        -- split; [lia|]. eauto.
      * intros (Hle & b & Hb & HH).
        destruct (decide (i = k)) as [->|]; [by left|].
        right. split; [lia|]. eauto.
    + rewrite Hrest. split.
      * intros (Hlt & b & Hb & HH). split; [lia|]. eauto.
      * intros (Hle & b & Hb & HH).
        destruct (decide (i = k)) as [->|].
        -- rewrite Nat.sub_diag in Hb. simpl in Hb. congruence.
        -- split; [lia|]. eauto.
Qed.

(** Dropping the indices selected by [del] keeps exactly the elements
    whose index is not selected. *)
Lemma keep_from_filter (del : nat → bool) (k : nat) (l : list Atom) :
  (∀ j a, l !! j = Some a → del (k + j)%nat = is_hydrogen a) →
  keep_from del k l = filter (λ a, is_hydrogen a = false) l.
Proof.
  revert k. induction l as [|a l IH]; intros k Hdel; simpl; [done|].
  rewrite (IH (S k)).
  - specialize (Hdel 0%nat a eq_refl). rewrite Nat.add_0_r in Hdel.
    rewrite Hdel. destruct (is_hydrogen a) eqn:Ha.
    + by rewrite filter_cons_False by congruence.
    + by rewrite filter_cons_True by done.
  - intros j b Hb. rewrite <- (Hdel (S j) b Hb). f_equal. lia.
Qed.

Lemma keep_from_length {A B} (del : nat → bool) (k : nat)
    (l1 : list A) (l2 : list B) :
  length l1 = length l2 →
  length (keep_from del k l1) = length (keep_from del k l2).
Proof.
  revert k l2. induction l1 as [|x l1 IH]; intros k [|y l2] Hlen;
    simplify_eq/=; [done|].
  destruct (del k); simpl; auto.
Qed.

Context {V : Type}.

(** The list built at line 117 is the set of indices of the hydrogens. *)
Lemma hydrogens_of_elem (m : Modeller V) (i : nat) :
  i ∈ hydrogens_of m
  ↔ ∃ a, atoms (topology m) !! i = Some a ∧ is_hydrogen a = true.
Proof.
  unfold hydrogens_of. rewrite hydrogens_from_elem, Nat.sub_0_r.
  split; [by intros [_ ?] | intros ?; split; [lia | done]].
Qed.

(** After line 118 the topology holds the atoms that are not hydrogens,
    in their order. *)
Lemma delete_hydrogens_atoms (m : Modeller V) :
  atoms (topology (Modeller_delete (hydrogens_of m) m))
  = filter (λ a, is_hydrogen a = false) (atoms (topology m)).
Proof.
  simpl. apply keep_from_filter. intros j a Hj. simpl.
  destruct (is_hydrogen a) eqn:Ha.
  - apply bool_decide_eq_true_2, hydrogens_of_elem. eauto.
  - apply bool_decide_eq_false_2. intros (b & Hb & HH)%hydrogens_of_elem.
    congruence.
Qed.

Lemma delete_hydrogens_none (m : Modeller V) :
  Forall (λ a, is_hydrogen a = false)
    (atoms (topology (Modeller_delete (hydrogens_of m) m))).
Proof.
  rewrite delete_hydrogens_atoms. apply Forall_forall.
  by intros a [Ha _]%list_elem_of_filter.
Qed.

(** One position per atom, before and after. *)
Lemma delete_positions_length (toDelete : list nat) (m : Modeller V) :
  length (positions m) = length (atoms (topology m)) →
  length (positions (Modeller_delete toDelete m))
  = length (atoms (topology (Modeller_delete toDelete m))).
Proof. intros H. simpl. by apply keep_from_length. Qed.

End Hydrogens.

(** ** Running the script *)

(** Case analysis on everything a statement branches on. *)
Ltac stmt_cases :=
  unfold stmt_seed, stmt_platform, stmt_log_start, stmt_properties,
    stmt_format, stmt_read, stmt_hydrogens, stmt_fname, stmt_write;
  repeat case_match; simplify_eq/=.

Ltac solve_preserves := intros ?; stmt_cases; first [done | congruence].

Section Run.
Context {tk : Toolkit}.
Implicit Types (g : Globals) (cl : CommandLine) (st : stmt).

Lemma exec_app (p1 p2 : list stmt) g :
  exec (p1 ++ p2) g
  = match exec p1 g with
    | Running g' => exec p2 g'
    | o => o
    end.
Proof.
  revert g. induction p1 as [|st p1 IH]; intros g; simpl; [done|].
  destruct (st g); auto.
Qed.

Lemma exec_preserves {A} (f : Globals → A) (prog : list stmt) :
  Forall (preserves f) prog → preserves f (exec prog).
Proof.
  induction 1 as [|st prog Hst _ IH]; intros g; simpl; [done|].
  specialize (Hst g). destruct (st g) as [g'| | |]; simpl in *; try done.
  by rewrite IH.
Qed.

Lemma exec_respects (R : Globals → Globals → Prop) (prog : list stmt) :
  Forall (respects R) prog → respects R (exec prog).
Proof.
  induction 1 as [|st prog Hst _ IH]; intros g1 g2 HR; simpl; [done|].
  specialize (Hst g1 g2 HR).
  destruct (st g1), (st g2); simpl in *; try done. by apply IH.
Qed.

(** *** What each statement leaves alone *)

Lemma script_keeps_cli_fields :
  Forall (preserves (λ g, cli_fields (g_cmd g))) script.
Proof. repeat constructor; solve_preserves. Qed.

Lemma after_platform_keeps_cmd :
  Forall (preserves g_cmd) (drop 2 script).
Proof. repeat constructor; solve_preserves. Qed.

Lemma after_properties_keeps_properties :
  Forall (preserves (λ g, (g_properties g, g_platform_name g))) (drop 4 script).
Proof. repeat constructor; solve_preserves. Qed.

Lemma after_format_keeps_parser :
  Forall (preserves g_parser) (drop 5 script).
Proof. repeat constructor; solve_preserves. Qed.

Lemma after_hydrogens_keeps_modeller :
  Forall (preserves g_modeller) (drop 7 script).
Proof. repeat constructor; solve_preserves. Qed.

Lemma script_keeps_environ : Forall (preserves w_environ) script.
Proof. repeat constructor; solve_preserves. Qed.

Lemma before_write_keeps_files :
  Forall (preserves w_files) (take 8 script).
Proof. repeat constructor; solve_preserves. Qed.

(** *** The run always ends *)

Lemma exec_not_stuck (prog : list stmt) :
  Forall (λ st, ∀ g g', st g ≠ Stuck g') prog →
  ∀ g g', exec prog g ≠ Stuck g'.
Proof.
  induction 1 as [|st prog Hst _ IH]; intros g g'; simpl; [done|].
  specialize (Hst g). by destruct (st g).
Qed.

(** The probe bound of [get_filename] is never reached: the run ends by
    falling off the end of the script, by [sys.exit] or by an exception,
    and the process has an exit status. *)
Lemma main_exit_status cl rnd env fs :
  ∃ code, exit_status (main cl rnd env fs) = Some code.
Proof.
  assert (H : ∀ g', main cl rnd env fs ≠ Stuck g').
  { apply exec_not_stuck. repeat constructor; intros g g'.
    all: try (stmt_cases; done).
    unfold stmt_write. pose proof (get_filename_total (w_files g)) as Htot.
    repeat case_match; try done. by edestruct Htot. }
  destruct (main cl rnd env fs) as [g|c g|e g|g]; simpl; eauto.
  by destruct (H g).
Qed.

(** *** The namespace [cmd] *)

Lemma state_after_cli_fields (k : nat) g :
  cli_fields (g_cmd (final_state (state_after k g))) = cli_fields (g_cmd g).
Proof.
  apply (exec_preserves (λ g, cli_fields (g_cmd g))).
  apply Forall_take, script_keeps_cli_fields.
Qed.

Lemma state_after_platform (k : nat) cl rnd env fs :
  let g0 := initial cl rnd env fs in
  let c := g_cmd (final_state (state_after k g0)) in
  platform c = platform (g_cmd g0)
  ∨ ∃ n p, cl_platform cl = Some n ∧ getPlatformByName n = inr p
           ∧ platform c = PObject p ∧ (2 ≤ k)%nat.
Proof.
  intros g0 c. subst c g0. unfold state_after.
  destruct cl as [path out ff [n|] sd];
    (destruct k as [|[|k]]; [by left..|]).
  all: change (take (S (S k)) script)
         with (take 2 script ++ take k (drop 2 script)).
  all: rewrite exec_app.
  all: pose proof (exec_preserves g_cmd (take k (drop 2 script))
                     (Forall_take _ _ _ after_platform_keeps_cmd)) as Hkeep.
  all: set (rest := take k (drop 2 script)) in *; clearbody rest.
  all: simpl; unfold stmt_platform; simpl.
  - destruct (getPlatformByName n) as [e|p] eqn:Hp; simpl; [by left|].
    right. exists n, p. split_and!; [done..| |lia].
    by rewrite Hkeep.
  - left. by rewrite Hkeep.
Qed.

(** Line 71 is where [cmd.platform] changes, and only there: before it the
    attribute is as parsed; from it on, a name the toolkit knows has been
    replaced by the platform object, for the rest of the run. *)
Lemma state_after_platform_exact (k : nat) cl rnd env fs :
  platform (g_cmd (final_state (state_after k (initial cl rnd env fs))))
  = match cl_platform cl with
    | None => PNone
    | Some n =>
        match getPlatformByName n with
        | inr p => if (2 <=? k)%nat then PObject p else PName n
        | inl _ => PName n
        end
    end.
Proof.
  unfold state_after. destruct cl as [path out ff pl sd].
  destruct k as [|[|k]].
  1, 2: simpl; destruct pl as [n|]; [by destruct (getPlatformByName n) | done].
  change (take (S (S k)) script)
    with (take 2 script ++ take k (drop 2 script)).
  rewrite exec_app.
  pose proof (exec_preserves g_cmd (take k (drop 2 script))
                (Forall_take _ _ _ after_platform_keeps_cmd)) as Hkeep.
  set (rest := take k (drop 2 script)) in *; clearbody rest.
  simpl; unfold stmt_platform; simpl.
  destruct pl as [n|]; simpl.
  - destruct (getPlatformByName n) as [e|p]; simpl; [done|].
    by rewrite Hkeep.
  - by rewrite Hkeep.
Qed.

(** *** The properties mapping *)

Lemma run_properties cl rnd env fs :
  g_properties (final_state (main cl rnd env fs))
  = match cl_platform cl with
    | None => Some ∅
    | Some n =>
        match getPlatformByName n with
        | inl _ => None
        | inr p => Some (platform_properties (getName p) env)
        end
    end.
Proof.
  unfold main.
  change script with (take 4 script ++ drop 4 script). rewrite exec_app.
  pose proof (exec_preserves _ _ after_properties_keeps_properties) as Hkeep.
  set (rest := drop 4 script) in *. clearbody rest.
  destruct cl as [path out ff [n|] sd]; simpl; unfold stmt_platform; simpl.
  - destruct (getPlatformByName n) as [e|p]; simpl; [done|].
    match goal with
    | |- context [exec rest ?g] => specialize (Hkeep g)
    end.
    simpl in Hkeep. by injection Hkeep as -> _.
  - match goal with
    | |- context [exec rest ?g] => specialize (Hkeep g)
    end.
    simpl in Hkeep. by injection Hkeep as -> _.
Qed.

End Run.

(** ** The properties chosen for a platform name *)

Section PlatformProperties.
Implicit Types (env : Os.environment) (name : string).

Lemma platform_properties_cuda env :
  platform_properties "CUDA" env !! "CudaPrecision" = Some "mixed"
  ∧ ∀ v, env !! "CUDA_VISIBLE_DEVICES" = Some v → v ≠ "" →
         platform_properties "CUDA" env !! "DeviceIndex" = Some v.
Proof.
  unfold platform_properties, Os.getenv. simpl. split.
  - destruct (env !! "CUDA_VISIBLE_DEVICES") as [v|]; [|done].
    by destruct (Py.truthy v).
  - intros v -> Hv. unfold Py.truthy.
    apply String.eqb_neq in Hv as ->. simpl. apply lookup_insert_eq.
Qed.

Lemma platform_properties_cpu env v :
  env !! "SLURM_CPUS_PER_TASK" = Some v → v ≠ "" →
  platform_properties "CPU" env !! "Threads" = Some v.
Proof.
  intros Hv Hne. unfold platform_properties, Os.getenv. simpl.
  rewrite Hv. unfold Py.truthy. apply String.eqb_neq in Hne as ->.
  simpl. apply lookup_insert_eq.
Qed.

Lemma platform_properties_other env name :
  name ≠ "CUDA" → name ≠ "CPU" → platform_properties name env = ∅.
Proof.
  intros H1%String.eqb_neq H2%String.eqb_neq.
  unfold platform_properties. by rewrite H1, H2.
Qed.

End PlatformProperties.

(** ** The output file name *)

Section OutputName.
Implicit Types (o stem p s : string).

Lemma lower_length s : String.length (lower s) = String.length s.
Proof. induction s as [|c s IH]; simpl; [done | by rewrite IH]. Qed.

Lemma truthy_ne o : o ≠ "" → Py.truthy o = true.
Proof. intros H. unfold Py.truthy. by apply negb_true_iff, String.eqb_neq. Qed.

(** With a non-empty [--output], the stem of the input plays no part. *)
Lemma output_fname_given o stem :
  o ≠ "" →
  output_fname (Some o) stem = if Py.endswith o ".cif" then o else o +:+ ".cif".
Proof.
  intros H. unfold output_fname. rewrite (truthy_ne _ H).
  by destruct (Py.endswith o ".cif").
Qed.

Lemma output_fname_truthy (out : option string) stem1 stem2 :
  Py.truthy_opt out = true → output_fname out stem1 = output_fname out stem2.
Proof.
  destruct out as [o|]; simpl; [|done]. unfold output_fname. by intros ->.
Qed.

Lemma output_fname_default (out : option string) stem :
  Py.truthy_opt out = false → output_fname out stem = stem +:+ "_H" +:+ ".cif".
Proof.
  destruct out as [o|]; simpl; [|done]. unfold output_fname. by intros ->.
Qed.

End OutputName.

Section RunNames.
Context {tk : Toolkit}.
Implicit Types (g : Globals) (cl : CommandLine).

Lemma exec_app_running (p1 p2 : list stmt) g g' :
  exec (p1 ++ p2) g = Running g' →
  ∃ g1, exec p1 g = Running g1 ∧ exec p2 g1 = Running g'.
Proof.
  rewrite exec_app. destruct (exec p1 g) as [g1| | |]; [eauto | done..].
Qed.

Lemma exec_single_running (st : stmt) g g' :
  exec [st] g = Running g' → st g = Running g'.
Proof. simpl. by destruct (st g). Qed.

Lemma preserves_running {A} (f : Globals → A) (st : stmt) g g' :
  preserves f st → st g = Running g' → f g' = f g.
Proof. intros H Hst. specialize (H g). by rewrite Hst in H. Qed.

Lemma after_format_keeps_fname :
  Forall (preserves (λ g, (g_fname g, g_fext g))) (drop 5 script).
Proof. repeat constructor; solve_preserves. Qed.

Lemma stmt_format_running g g' :
  stmt_format g = Running g' →
  g_fname g' = Some (OsPath.splitext (structure (g_cmd g))).1
  ∧ g_fext g' = Some (OsPath.splitext (structure (g_cmd g))).2
  ∧ g_parser g' = select_parser (OsPath.splitext (structure (g_cmd g))).2
  ∧ is_Some (g_parser g').
Proof.
  unfold stmt_format.
  destruct (OsPath.splitext (structure (g_cmd g))) as [fname fext].
  destruct (select_parser fext) as [k|] eqn:Hk; [|done].
  intros [= <-]. simpl. eauto.
Qed.

Lemma stmt_fname_running g g' stem :
  g_fname g = Some stem →
  stmt_fname g = Running g' →
  g__fname g' = Some (output_fname (output (g_cmd g)) stem).
Proof.
  intros Hstem. unfold stmt_fname. rewrite Hstem.
  destruct (Py.truthy_opt (output (g_cmd g))) eqn:Hout; intros [= <-]; simpl;
    [|done].
  f_equal. by apply output_fname_truthy.
Qed.

Lemma get_filename_returns (fs fs' : Os.fsys) (name p : string) :
  get_filename fs name = Ok (p, fs') → p = name.
Proof.
  unfold get_filename, get_filename_fuel.
  destruct (Os.isfile fs name); cbn [negb]; [|by intros [= <- <-]].
  destruct (get_filename_loop _ _ _ _); by intros [= <- <-].
Qed.

(** A run that gets past line 133 wrote the text of the modeller's
    topology at the path of line 122-128. *)
Lemma stmt_write_running g g' :
  stmt_write g = Running g' →
  ∃ path m text,
    g__fname g = Some path
    ∧ g_cif_fname g' = Some path
    ∧ g_modeller g = Some m
    ∧ writeFile (topology m) (positions m) = inr text
    ∧ w_files g' !! path = Some (Os.File text).
Proof.
  unfold stmt_write. intros H. repeat case_match; simplify_eq/=.
  match goal with
  | H : get_filename _ _ = Ok _ |- _ => apply get_filename_returns in H as ->
  end.
  eexists _, _, _. split_and!; [done..|]. apply lookup_insert_eq.
Qed.

(** The name computed at lines 122-128, for a run that gets there. *)
Lemma run_fname cl rnd env fs g :
  state_after 8 (initial cl rnd env fs) = Running g →
  g__fname g
  = Some (output_fname (cl_output cl) (OsPath.splitext (cl_structure cl)).1).
Proof.
  unfold state_after. intros H.
  change (take 8 script)
    with (take 4 script ++ [stmt_format] ++ [stmt_read; stmt_hydrogens]
            ++ [stmt_fname]) in H.
  apply exec_app_running in H as (g4 & H4 & H).
  apply exec_app_running in H as (g5 & H5%exec_single_running & H).
  apply exec_app_running in H as (g7 & H7 & H8%exec_single_running).
  assert (Hc4 : cli_fields (g_cmd g4) = cli_fields (parse_args cl)).
  { apply (preserves_running (λ g, cli_fields (g_cmd g)) _ _ _
             (exec_preserves _ _ (Forall_take _ 4 _ script_keeps_cli_fields)) H4). }
  assert (Hc5 : cli_fields (g_cmd g5) = cli_fields (g_cmd g4)).
  { apply (preserves_running (λ g, cli_fields (g_cmd g)) stmt_format);
      [solve_preserves | done]. }
  assert (Hc7 : cli_fields (g_cmd g7) = cli_fields (g_cmd g5)).
  { apply (preserves_running (λ g, cli_fields (g_cmd g))
             (exec [stmt_read; stmt_hydrogens])); [|done].
    apply exec_preserves. repeat constructor; solve_preserves. }
  assert (Hf7 : (g_fname g7, g_fext g7) = (g_fname g5, g_fext g5)).
  { apply (preserves_running (λ g, (g_fname g, g_fext g))
             (exec [stmt_read; stmt_hydrogens])); [|done].
    apply exec_preserves. repeat constructor; solve_preserves. }
  apply stmt_format_running in H5 as (Hfname & _).
  injection Hf7 as Hf7 _. rewrite Hfname in Hf7.
  rewrite (stmt_fname_running _ _ _ Hf7 H8).
  clear -Hc4 Hc5 Hc7. unfold cli_fields in *. simpl in Hc4. congruence.
Qed.

End RunNames.

(** ** Getting to the format test, reading, and two runs side by side *)

(** Takes two related states apart and rewrites with what relates them. *)
Ltac related_states :=
  intros [[] ? ? ? ? ? ? ? ? ? ? ? ? ? ? ?] [[] ? ? ? ? ? ? ? ? ? ? ? ? ? ? ?];
  unfold same_but_platform, same_input, cli_fields, work, platform_bound;
  simpl; intros ?; destruct_and?; simplify_eq/=.

Ltac solve_respects :=
  related_states;
  unfold stmt_read, Os.read; simpl;
  try match goal with
      | H : ?fs1 !! ?k = ?fs2 !! ?k |- _ => rewrite H
      end;
  stmt_cases; simpl; try done;
  unfold same_but_platform, same_input, cli_fields, work, platform_bound;
  simpl; repeat split; first [done | congruence].

Section TwoRuns.
Context {tk : Toolkit}.
Implicit Types (g : Globals) (cl : CommandLine).

(** With a platform the toolkit knows (or none), the run reaches line 99
    having touched neither the file system nor the structure. *)
Lemma run_to_format cl rnd env fs :
  platform_resolves cl →
  ∃ g4, state_after 4 (initial cl rnd env fs) = Running g4
        ∧ cli_fields (g_cmd g4) = cli_fields (parse_args cl)
        ∧ platform_bound (g_cmd g4)
        ∧ work g4 = (None, None, None, None, None, None, None, None, None)
        ∧ w_random g4 = random_seed (default 917 (cl_seed cl))
        ∧ w_files g4 = fs
        ∧ Forall before_reading (w_trace g4).
Proof.
  unfold platform_resolves, state_after.
  destruct cl as [path out ff [n|] sd]; simpl; unfold stmt_platform; simpl.
  - intros [p ->]. simpl. eexists. split; [done|].
    split_and!; try done. repeat constructor.
  - intros _. eexists. split; [done|].
    split_and!; try done. repeat constructor.
Qed.

Lemma stmt_read_running g g' :
  stmt_read g = Running g' →
  ∃ k text s ff,
    g_parser g = Some k
    ∧ w_files g !! structure (g_cmd g) = Some (Os.File text)
    ∧ parse k text = inr s
    ∧ load_forcefield (forcefield (g_cmd g)) = inr ff
    ∧ g_structure g' = Some s
    ∧ g_forcefield g' = Some ff
    ∧ g_modeller g' = Some (Build_Modeller (s_topology s) (s_positions s))
    ∧ w_random g' = w_random g.
Proof.
  unfold stmt_read, Os.read. intros H. repeat case_match; simplify_eq/=.
  eexists _, _, _, _. split_and!; done.
Qed.

(** What line 114-119 do to a state with a modeller and a forcefield. *)
Lemma stmt_hydrogens_spec g (m : Modeller Vec3) (ff : ForceField) :
  g_modeller g = Some m →
  g_forcefield g = Some ff →
  let stripped := Modeller_delete (hydrogens_of m) m in
  ∃ g', g_modeller g' = Some stripped
        ∧ w_trace g' = w_trace g
                       ++ [info "Removing and re-adding hydrogen atoms";
                           Call_delete (hydrogens_of m);
                           Call_addHydrogens ff pH_7_0]
        ∧ stmt_hydrogens g
          = match addHydrogens ff pH_7_0 stripped (w_random g) with
            | inl e => Raised e g'
            | inr (m', r) => Running (set_random r (set_modeller m' g'))
            end.
Proof.
  intros Hm Hff stripped. unfold stmt_hydrogens. simpl. rewrite Hm. simpl.
  rewrite Hff. eexists. split_and!; [| |reflexivity].
  - reflexivity.
  - simpl. by rewrite <- !(assoc_L (++)).
Qed.

(** From line 99 on nothing depends on the platform, the properties or the
    environment. *)
Lemma after_properties_respects :
  Forall (respects same_but_platform) (drop 4 script).
Proof.
  simpl. repeat (apply Forall_cons_2; [solve_respects|]). apply Forall_nil_2.
Qed.

(** From line 70 to line 128 nothing depends on the environment or on
    files other than the input. *)
Lemma before_write_respects :
  Forall (respects same_input) (drop 1 (take 8 script)).
Proof.
  simpl. repeat (apply Forall_cons_2; [solve_respects|]). apply Forall_nil_2.
Qed.

Lemma outcome_rel_final (R : Globals → Globals → Prop) (o1 o2 : outcome) :
  outcome_rel R o1 o2 →
  R (final_state o1) (final_state o2)
  ∧ exit_status o1 = exit_status o2
  ∧ (running o1 ↔ running o2).
Proof.
  destruct o1, o2; simpl; try done; intros H; destruct_and?; by subst.
Qed.

(** Two runs that differ in the platform, the environment and the initial
    random state end the same way, with the same files. *)
Lemma main_same_but_platform cl1 cl2 rnd1 rnd2 env1 env2 fs :
  cli_fields (parse_args cl1) = cli_fields (parse_args cl2) →
  platform_resolves cl1 →
  platform_resolves cl2 →
  outcome_rel same_but_platform (main cl1 rnd1 env1 fs) (main cl2 rnd2 env2 fs).
Proof.
  intros Hcl Hres1 Hres2.
  destruct (run_to_format cl1 rnd1 env1 fs Hres1)
    as (g1 & H1 & Hc1 & Hb1 & Hw1 & Hr1 & Hf1 & _).
  destruct (run_to_format cl2 rnd2 env2 fs Hres2)
    as (g2 & H2 & Hc2 & Hb2 & Hw2 & Hr2 & Hf2 & _).
  unfold main, state_after in *.
  change script with (take 4 script ++ drop 4 script).
  rewrite !exec_app, H1, H2.
  apply (exec_respects _ _ after_properties_respects).
  unfold same_but_platform. split_and!; try done; try congruence.
  rewrite Hr1, Hr2. unfold cli_fields in Hcl. simpl in Hcl. congruence.
Qed.

(** Two runs with the same command line and the same input file are in
    related states when they get to line 130, if they do. *)
Lemma to_write_same_input cl rnd1 rnd2 env1 env2 (fs1 fs2 : Os.fsys) :
  fs1 !! cl_structure cl = fs2 !! cl_structure cl →
  outcome_rel same_input
    (state_after 8 (initial cl rnd1 env1 fs1))
    (state_after 8 (initial cl rnd2 env2 fs2)).
Proof.
  intros Hfs. unfold state_after.
  change (take 8 script) with ([stmt_seed] ++ drop 1 (take 8 script)).
  rewrite !exec_app.
  set (rest := drop 1 (take 8 script)).
  pose proof (exec_respects _ rest before_write_respects) as Hrest.
  clearbody rest. simpl.
  apply Hrest. unfold same_input. simpl. split_and!; done.
Qed.

End TwoRuns.

(** * The claims *)

(** C1, at a path with a directory part: an earlier output exists at
    [out/bar.cif]; the backup name [#out/bar.cif.1#] lies in a directory
    [#out] that does not exist, so [os.rename] raises and no path is
    returned.  Run with [--output out/bar], the script ends with an uncaught
    exception after the hydrogens were rebuilt, and writes nothing. *)
Theorem get_filename_nested_path_raises :
  Os.isfile Inputs.nested_fs "out/bar.cif" = true
  ∧ backup_name "out/bar.cif" 1 = "#out/bar.cif.1#"
  ∧ Os.isfile Inputs.nested_fs (backup_name "out/bar.cif" 1) = false
  ∧ get_filename Inputs.nested_fs "out/bar.cif" = Raise FileNotFoundError
  ∧ (let o := @main Toy.toolkit
                (Toy.command_line "in.pdb" (Some "out/bar") None)
                0 Inputs.no_env Inputs.nested_fs in
     exit_status o = Some 1
     ∧ g__fname (final_state o) = Some "out/bar.cif"
     ∧ g_cif_fname (final_state o) = None
     ∧ w_files (final_state o) = Inputs.nested_fs).
Proof. repeat apply conj; reflexivity. Qed.

(** C5, as stated, at the OpenCL platform: it runs on a GPU, its name is
    known to the toolkit, the device list is set, and yet the properties
    mapping is empty: no precision entry, no device index. *)
Lemma opencl_gets_no_properties :
  let o := @main Toy.toolkit
             (Toy.command_line "in.pdb" None (Some "OpenCL"))
             0 Inputs.slurm_env Inputs.flat_fs in
  @getPlatformByName Toy.toolkit "OpenCL" = inr "OpenCL"
  ∧ gpu_class (@getName Toy.toolkit "OpenCL") = true
  ∧ Inputs.slurm_env !! "CUDA_VISIBLE_DEVICES" = Some "0,1"
  ∧ g_properties (final_state o) = Some ∅
  ∧ (∅ : gmap string string) !! "CudaPrecision" = None.
Proof. repeat apply conj; reflexivity. Qed.

(** C5, amended: with no platform requested the properties mapping is
    empty; when the requested name resolves to the platform named exactly
    CUDA, the mapping has [CudaPrecision] set to [mixed] and, if
    [CUDA_VISIBLE_DEVICES] is set and non-empty, [DeviceIndex] equal to it;
    when it resolves to the platform named exactly CPU, the mapping has
    [Threads] equal to [SLURM_CPUS_PER_TASK] if that is set and
    non-empty. *)
Theorem platform_properties_by_name `{tk : Toolkit}
    (cl : CommandLine) (rnd : RandomState) (env : Os.environment)
    (fs : Os.fsys) :
  let ps := g_properties (final_state (main cl rnd env fs)) in
  (cl_platform cl = None → ps = Some ∅)
  ∧ (∀ n p, cl_platform cl = Some n → getPlatformByName n = inr p →
            getName p = "CUDA" →
            ∃ m, ps = Some m
                 ∧ m !! "CudaPrecision" = Some "mixed"
                 ∧ ∀ v, env !! "CUDA_VISIBLE_DEVICES" = Some v → v ≠ "" →
                        m !! "DeviceIndex" = Some v)
  ∧ (∀ n p, cl_platform cl = Some n → getPlatformByName n = inr p →
            getName p = "CPU" →
            ∃ m, ps = Some m
                 ∧ ∀ v, env !! "SLURM_CPUS_PER_TASK" = Some v → v ≠ "" →
                        m !! "Threads" = Some v).
Proof.
  intros ps. subst ps. rewrite run_properties. split_and!.
  - by intros ->.
  - intros n p -> -> ->. eexists. split; [done|]. apply platform_properties_cuda.
  - intros n p -> -> ->. eexists. split; [done|].
    intros v. apply platform_properties_cpu.
Qed.

Lemma platform_properties_by_name_witness :
  let ps cl := g_properties (final_state (@main Toy.toolkit cl 0
                                            Inputs.slurm_env Inputs.flat_fs)) in
  ps (Toy.command_line "in.pdb" None None) = Some ∅
  ∧ (∃ m, ps (Toy.command_line "in.pdb" None (Some "CUDA")) = Some m
          ∧ m !! "CudaPrecision" = Some "mixed"
          ∧ m !! "DeviceIndex" = Some "0,1")
  ∧ (∃ m, ps (Toy.command_line "in.pdb" None (Some "CPU")) = Some m
          ∧ m !! "Threads" = Some "8").
Proof.
  intros ps. split_and!.
  - apply (platform_properties_by_name (tk := Toy.toolkit)). reflexivity.
  - destruct (platform_properties_by_name (tk := Toy.toolkit)
                (Toy.command_line "in.pdb" None (Some "CUDA")) 0
                Inputs.slurm_env Inputs.flat_fs) as (_ & Hcuda & _).
    destruct (Hcuda "CUDA" "CUDA" eq_refl eq_refl eq_refl)
      as (m & Hm & Hprec & Hdev).
    exists m. split_and!; [exact Hm | exact Hprec |].
    apply Hdev; [reflexivity | discriminate].
  - destruct (platform_properties_by_name (tk := Toy.toolkit)
                (Toy.command_line "in.pdb" None (Some "CPU")) 0
                Inputs.slurm_env Inputs.flat_fs) as (_ & _ & Hcpu).
    destruct (Hcpu "CPU" "CPU" eq_refl eq_refl eq_refl) as (m & Hm & Hthr).
    exists m. split; [exact Hm |].
    apply Hthr; [reflexivity | discriminate].
Defined.

(** C10: when the requested platform resolves to one whose name is neither
    CUDA nor CPU, the properties mapping is empty, whatever the
    environment holds. *)
Theorem other_platforms_no_properties `{tk : Toolkit}
    (cl : CommandLine) (rnd : RandomState) (env : Os.environment)
    (fs : Os.fsys) (n : string) (p : Platform) :
  cl_platform cl = Some n →
  getPlatformByName n = inr p →
  getName p ≠ "CUDA" →
  getName p ≠ "CPU" →
  g_properties (final_state (main cl rnd env fs)) = Some ∅.
Proof.
  intros Hn Hp H1 H2. rewrite run_properties, Hn, Hp.
  by rewrite platform_properties_other.
Qed.

Lemma other_platforms_no_properties_witness :
  g_properties
    (final_state (@main Toy.toolkit
                    (Toy.command_line "in.pdb" None (Some "Reference"))
                    0 Inputs.slurm_env Inputs.flat_fs))
  = Some ∅.
Proof.
  apply (other_platforms_no_properties (tk := Toy.toolkit) _ _ _ _
           "Reference" "Reference");
    [reflexivity | reflexivity | discriminate | discriminate].
Defined.

(** C6, as stated, on a run with [--platform CUDA]: after line 71 the
    attribute [cmd.platform] holds the platform object, not the name it was
    created with. *)
Lemma cmd_platform_rebound :
  let g0 := @initial Toy.toolkit
              (Toy.command_line "in.pdb" None (Some "CUDA"))
              0 Inputs.no_env Inputs.flat_fs in
  let g2 := final_state (state_after 2 g0) in
  platform (g_cmd g0) = @PName Toy.toolkit "CUDA"
  ∧ platform (g_cmd g2) = @PObject Toy.toolkit "CUDA"
  ∧ g_cmd g2 ≠ g_cmd g0.
Proof. repeat apply conj; [reflexivity | reflexivity | discriminate]. Qed.

(** C6, amended: at every point of the run the fields [structure],
    [output], [forcefield] and [seed] of [cmd] are the ones parsed from the
    command line.  The field [platform] is overwritten once, at line 71:
    before that line it is as parsed; from that line on, when a name was
    given and the toolkit resolved it, it is the platform object the name
    resolved to, and stays so; it is left alone when no platform was given
    (and when the lookup raises, which ends the run). *)
Theorem cmd_fields_stable `{tk : Toolkit}
    (cl : CommandLine) (rnd : RandomState) (env : Os.environment)
    (fs : Os.fsys) (k : nat) :
  let g0 := initial cl rnd env fs in
  let c := g_cmd (final_state (state_after k g0)) in
  structure c = cl_structure cl
  ∧ output c = cl_output cl
  ∧ forcefield c = default "amber99sbildn.xml" (cl_forcefield cl)
  ∧ seed c = default 917 (cl_seed cl)
  ∧ platform c
    = match cl_platform cl with
      | None => PNone
      | Some n =>
          match getPlatformByName n with
          | inr p => if (2 <=? k)%nat then PObject p else PName n
          | inl _ => PName n
          end
      end.
Proof.
  intros g0 c.
  pose proof (state_after_cli_fields k g0) as Hfields.
  unfold cli_fields in Hfields. fold c in Hfields. simpl in Hfields.
  injection Hfields as -> -> -> ->.
  split_and!; [done..|]. apply state_after_platform_exact.
Qed.

(** C4, as stated, at the empty [--output] value: it does not end in
    [.cif], yet the output path is not that value with [.cif] appended
    but the default derived from the input. *)
Lemma empty_output_is_default :
  let o := @main Toy.toolkit (Toy.command_line "in.pdb" (Some "") None)
             0 Inputs.no_env Inputs.flat_fs in
  Py.endswith "" ".cif" = false
  ∧ output_fname (Some "") "in" = "in_H.cif"
  ∧ output_fname (Some "") "in" ≠ "" +:+ ".cif"
  ∧ exit_status o = Some 0
  ∧ g__fname (final_state o) = Some "in_H.cif"
  ∧ g_cif_fname (final_state o) = Some "in_H.cif".
Proof. repeat apply conj; first [reflexivity | discriminate]. Qed.

(** C4, amended: in a run that reaches line 130 the output path is: for
    input [foo.pdb] and no [--output], [foo_H.cif]; for [--output bar],
    [bar.cif]; for [--output bar.cif], [bar.cif]; in general, for a
    non-empty [--output] value, that value with [.cif] appended exactly when
    it does not already end in [.cif]; an empty [--output] value counts as
    absent, and the path is then the input path without its extension
    followed by [_H.cif]. *)
Theorem output_fname_derivation `{tk : Toolkit}
    (cl : CommandLine) (rnd : RandomState) (env : Os.environment)
    (fs : Os.fsys) :
  let o := state_after 8 (initial cl rnd env fs) in
  running o →
  g__fname (final_state o)
  = Some (output_fname (cl_output cl) (OsPath.splitext (cl_structure cl)).1)
  ∧ output_fname None (OsPath.splitext "foo.pdb").1 = "foo_H.cif"
  ∧ (∀ stem, output_fname (Some "bar") stem = "bar.cif"
             ∧ output_fname (Some "bar.cif") stem = "bar.cif")
  ∧ (∀ o stem, o ≠ "" →
               output_fname (Some o) stem
               = if Py.endswith o ".cif" then o else o +:+ ".cif")
  ∧ (∀ stem, output_fname (Some "") stem = stem +:+ "_H.cif"
             ∧ output_fname None stem = stem +:+ "_H.cif").
Proof.
  intros o Hrun. split_and!.
  - subst o. destruct (state_after 8 _) as [g| | |] eqn:Hg; try done.
    exact (run_fname _ _ _ _ _ Hg).
  - reflexivity.
  - intros stem. split; reflexivity.
  - intros out stem. apply output_fname_given.
  - intros stem. split; reflexivity.
Qed.

Lemma output_fname_derivation_witness :
  let o := @state_after Toy.toolkit 8
             (@initial Toy.toolkit
                (Toy.command_line "in.pdb" (Some "bar") None)
                0 Inputs.no_env Inputs.flat_fs) in
  running o ∧ g__fname (final_state o) = Some "bar.cif".
Proof.
  split; [exact I|].
  refine (proj1 (output_fname_derivation (tk := Toy.toolkit)
                   (Toy.command_line "in.pdb" (Some "bar") None)
                   0 Inputs.no_env Inputs.flat_fs I)).
Defined.

(** C9: the suffix test is case-sensitive: an [--output] value that ends in
    a variant of [.cif] with some letter in upper case ([.CIF], [.Cif], ...)
    does not end in [.cif], and gets [.cif] appended. *)
Theorem cif_suffix_case_sensitive (p s stem : string) :
  lower s = ".cif" →
  s ≠ ".cif" →
  Py.endswith (p +:+ s) ".cif" = false
  ∧ output_fname (Some (p +:+ s)) stem = (p +:+ s) +:+ ".cif".
Proof.
  intros Hlow Hne.
  assert (Hlen : String.length s = String.length ".cif").
  { by rewrite <- (lower_length s), Hlow. }
  assert (Hends : Py.endswith (p +:+ s) ".cif" = false).
  { rewrite endswith_same_length by done. by apply String.eqb_neq. }
  split; [done|].
  rewrite output_fname_given, Hends; [done|].
  intros H%(f_equal String.length). rewrite str_length_app, Hlen in H.
  simpl in H. lia.
Qed.

Lemma cif_suffix_case_sensitive_witness :
  Py.endswith "bar.CIF" ".cif" = false
  ∧ output_fname (Some "bar.CIF") "foo" = "bar.CIF.cif".
Proof.
  apply (cif_suffix_case_sensitive "bar" ".CIF" "foo");
    [reflexivity | discriminate].
Defined.

(** C2: in a run that reaches line 114, the modeller holds the parsed
    topology; line 117 collects (the indices of) exactly its hydrogen
    atoms; line 118 deletes them, leaving the other atoms in their order
    and no hydrogen; only then is the toolkit's [addHydrogens] called, on
    that hydrogen-free modeller, with the loaded forcefield and pH 7.0; the
    topology of the output is what it returns. *)
Theorem hydrogen_normalization `{tk : Toolkit}
    (cl : CommandLine) (rnd : RandomState) (env : Os.environment)
    (fs : Os.fsys) :
  let g0 := initial cl rnd env fs in
  running (state_after 6 g0) →
  let g6 := final_state (state_after 6 g0) in
  ∃ s ff,
    g_structure g6 = Some s
    ∧ load_forcefield (forcefield (parse_args cl)) = inr ff
    ∧ g_forcefield g6 = Some ff
    ∧ let m := Build_Modeller (s_topology s) (s_positions s) in
      let stripped := Modeller_delete (hydrogens_of m) m in
      g_modeller g6 = Some m
      ∧ (∀ i, i ∈ hydrogens_of m
              ↔ ∃ a, atoms (s_topology s) !! i = Some a ∧ is_hydrogen a = true)
      ∧ atoms (topology stripped)
        = filter (λ a, is_hydrogen a = false) (atoms (s_topology s))
      ∧ Forall (λ a, is_hydrogen a = false) (atoms (topology stripped))
      ∧ ∃ g', g_modeller g' = Some stripped
              ∧ w_trace g'
                = w_trace g6
                  ++ [info "Removing and re-adding hydrogen atoms";
                      Call_delete (hydrogens_of m);
                      Call_addHydrogens ff pH_7_0]
              ∧ state_after 7 g0
                = match addHydrogens ff pH_7_0 stripped (w_random g6) with
                  | inl e => Raised e g'
                  | inr (m', r) => Running (set_random r (set_modeller m' g'))
                  end
              ∧ g_modeller (final_state (main cl rnd env fs))
                = match addHydrogens ff pH_7_0 stripped (w_random g6) with
                  | inl _ => Some stripped
                  | inr (m', _) => Some m'
                  end.
Proof.
  intros g0 Hrun g6. subst g6.
  destruct (state_after 6 g0) as [g6| | |] eqn:H6; try done. clear Hrun.
  simpl final_state.
  assert (H7 : state_after 7 g0 = stmt_hydrogens g6).
  { unfold state_after in *.
    change (take 7 script) with (take 6 script ++ [stmt_hydrogens]).
    rewrite exec_app, H6. simpl. by destruct (stmt_hydrogens g6). }
  assert (Hmain : g_modeller (final_state (main cl rnd env fs))
                  = g_modeller (final_state (stmt_hydrogens g6))).
  { unfold main. fold g0.
    change script with (take 7 script ++ drop 7 script).
    rewrite exec_app. fold (state_after 7 g0). rewrite H7.
    destruct (stmt_hydrogens g6) as [g7| | |]; try done.
    apply (exec_preserves g_modeller _ after_hydrogens_keeps_modeller). }
  unfold state_after in H6.
  change (take 6 script) with (take 5 script ++ [stmt_read]) in H6.
  apply exec_app_running in H6 as (g5 & H5 & Hread%exec_single_running).
  assert (Hc5 : cli_fields (g_cmd g5) = cli_fields (parse_args cl)).
  { apply (preserves_running (λ g, cli_fields (g_cmd g)) _ _ _
             (exec_preserves _ _ (Forall_take _ 5 _ script_keeps_cli_fields)) H5). }
  apply stmt_read_running in Hread
    as (k & text & s & ff & _ & _ & _ & Hff & Hs & Hgff & Hm & _).
  exists s, ff. split_and!; [done| |done|].
  { unfold cli_fields in Hc5. simpl in Hc5 |- *. congruence. }
  intros m stripped. split_and!; [done| | | |].
  - apply (hydrogens_of_elem m).
  - apply (delete_hydrogens_atoms m).
  - apply (delete_hydrogens_none m).
  - destruct (stmt_hydrogens_spec g6 m ff Hm Hgff) as (g' & Hg' & Htr & Hst).
    exists g'. rewrite Hmain, H7, Hst. split_and!; [done..|].
    fold stripped. by destruct (addHydrogens _ _ _ _) as [e|[m' r]].
Qed.

Lemma hydrogen_normalization_witness :
  let g0 := @initial Toy.toolkit (Toy.command_line "in.pdb" None None)
              0 Inputs.no_env Inputs.flat_fs in
  running (state_after 6 g0)
  ∧ ∃ s, g_structure (final_state (state_after 6 g0)) = Some s
         ∧ Forall (λ a, is_hydrogen a = false)
             (atoms (topology
                       (Modeller_delete
                          (hydrogens_of
                             (Build_Modeller (s_topology s) (s_positions s)))
                          (Build_Modeller (s_topology s) (s_positions s))))).
Proof.
  intros g0. split; [exact I|].
  destruct (hydrogen_normalization (tk := Toy.toolkit)
              (Toy.command_line "in.pdb" None None)
              0 Inputs.no_env Inputs.flat_fs I)
    as (s & ff & Hs & _ & _ & _ & _ & _ & Hnone & _).
  exists s. split; [exact Hs | exact Hnone].
Defined.

(** The stand-in toolkit on the structure [CHH]: both hydrogens go, one is
    added. *)
Example toy_run_output :
  let o := @main Toy.toolkit (Toy.command_line "in.pdb" None None)
             0 Inputs.no_env Inputs.flat_fs in
  exit_status o = Some 0
  ∧ g_hydrogens (final_state o) = Some [1; 2]%nat
  ∧ w_files (final_state o) !! "in_H.cif" = Some (Os.File "CH").
Proof. repeat apply conj; reflexivity. Qed.

(** C3: with a platform the toolkit knows (or none), the extension that
    [os.path.splitext] gives for the structure path decides: [.pdb] selects
    the PDB parser, [.cif] the mmCIF parser, compared exactly; with any
    other extension the script logs the error and exits with status 1,
    having called no parser, bound no structure and left the file system
    as it was. *)
Theorem format_dispatch `{tk : Toolkit}
    (cl : CommandLine) (rnd : RandomState) (env : Os.environment)
    (fs : Os.fsys) :
  platform_resolves cl →
  let fext := (OsPath.splitext (cl_structure cl)).2 in
  let o := main cl rnd env fs in
  (fext = ".pdb" → g_parser (final_state o) = Some PDBFile)
  ∧ (fext = ".cif" → g_parser (final_state o) = Some PDBxFile)
  ∧ (fext ≠ ".pdb" → fext ≠ ".cif" →
     ∃ g, o = Exited 1 g
          ∧ last (w_trace g) = Some (Log ERROR format_error)
          ∧ Forall before_reading (w_trace g)
          ∧ g_parser g = None
          ∧ g_structure g = None
          ∧ g_modeller g = None
          ∧ w_files g = fs).
Proof.
  intros Hres fext o.
  destruct (run_to_format cl rnd env fs Hres)
    as (g4 & H4 & Hc & _ & Hw & _ & Hfs & Htr).
  assert (Hpath : structure (g_cmd g4) = cl_structure cl).
  { unfold cli_fields in Hc. by injection Hc as -> _ _ _. }
  assert (Ho : o = match stmt_format g4 with
                   | Running g5 => exec (drop 5 script) g5
                   | o' => o'
                   end).
  { subst o. unfold main, state_after in *.
    change script with (take 4 script ++ [stmt_format] ++ drop 5 script) at 1.
    by rewrite exec_app, H4. }
  pose proof (exec_preserves g_parser _ after_format_keeps_parser) as Hkeep.
  set (rest := drop 5 script) in *. clearbody rest.
  unfold work in Hw. injection Hw as _ _ Hp Hs _ Hm _ _ _.
  unfold stmt_format in Ho. rewrite Hpath in Ho. fold fext in Ho.
  destruct (OsPath.splitext (cl_structure cl)) as [stem ext].
  simpl in fext. subst fext.
  split_and!.
  - intros ->. rewrite Ho. simpl. by rewrite Hkeep.
  - intros ->. rewrite Ho. simpl. by rewrite Hkeep.
  - intros H1%String.eqb_neq H2%String.eqb_neq.
    unfold select_parser in Ho. rewrite H1, H2 in Ho.
    eexists. split; [exact Ho|]. simpl. split_and!; try done.
    + by rewrite last_snoc.
    + apply Forall_app. split; [done | by repeat constructor].
Qed.

Lemma format_dispatch_witness :
  let o ext := @main Toy.toolkit (Toy.command_line ("in" +:+ ext) None None)
                 0 Inputs.no_env Inputs.flat_fs in
  g_parser (final_state (o ".pdb")) = Some PDBFile
  ∧ g_parser (final_state (o ".cif")) = Some PDBxFile
  ∧ ∃ g, o ".PDB" = Exited 1 g ∧ w_files g = Inputs.flat_fs.
Proof.
  intros o. split_and!.
  - apply (format_dispatch (tk := Toy.toolkit)
             (Toy.command_line "in.pdb" None None) 0 Inputs.no_env
             Inputs.flat_fs I). reflexivity.
  - apply (format_dispatch (tk := Toy.toolkit)
             (Toy.command_line "in.cif" None None) 0 Inputs.no_env
             Inputs.flat_fs I). reflexivity.
  - destruct (format_dispatch (tk := Toy.toolkit)
                (Toy.command_line "in.PDB" None None) 0 Inputs.no_env
                Inputs.flat_fs I) as (_ & _ & Hother).
    destruct Hother as (g & Hg & _ & _ & _ & _ & _ & Hfs);
      [discriminate | discriminate |].
    exists g. split; [exact Hg | exact Hfs].
Defined.

(** C8: the platform object and the properties mapping reach no later
    statement: two runs on the same file system with the same structure,
    output, forcefield and seed arguments, whatever their [--platform]
    values (as long as the toolkit knows them), their environments and
    their initial random states, end with the same exit status, the same
    files with the same contents, and the same modeller. *)
Theorem platform_noninterference `{tk : Toolkit}
    (cl1 cl2 : CommandLine) (rnd1 rnd2 : RandomState)
    (env1 env2 : Os.environment) (fs : Os.fsys) :
  cl_structure cl1 = cl_structure cl2 →
  cl_output cl1 = cl_output cl2 →
  cl_forcefield cl1 = cl_forcefield cl2 →
  cl_seed cl1 = cl_seed cl2 →
  platform_resolves cl1 →
  platform_resolves cl2 →
  let o1 := main cl1 rnd1 env1 fs in
  let o2 := main cl2 rnd2 env2 fs in
  w_files (final_state o1) = w_files (final_state o2)
  ∧ exit_status o1 = exit_status o2
  ∧ g_cif_fname (final_state o1) = g_cif_fname (final_state o2)
  ∧ g_modeller (final_state o1) = g_modeller (final_state o2).
Proof.
  intros Hs Ho Hff Hsd Hres1 Hres2 o1 o2.
  assert (Hcl : cli_fields (parse_args cl1) = cli_fields (parse_args cl2)).
  { unfold cli_fields. simpl. congruence. }
  pose proof (main_same_but_platform cl1 cl2 rnd1 rnd2 env1 env2 fs
                Hcl Hres1 Hres2) as Hrel.
  apply outcome_rel_final in Hrel as ((_ & _ & _ & Hw & _ & Hf) & Hexit & _).
  subst o1 o2. unfold work in Hw. injection Hw as _ _ _ _ _ Hm _ _ Hc.
  split_and!; done.
Qed.

Lemma platform_noninterference_witness :
  let o1 := @main Toy.toolkit (Toy.command_line "in.pdb" None None)
              0 Inputs.no_env Inputs.flat_fs in
  let o2 := @main Toy.toolkit (Toy.command_line "in.pdb" None (Some "CUDA"))
              7 Inputs.slurm_env Inputs.flat_fs in
  w_files (final_state o1) = w_files (final_state o2)
  ∧ exit_status o1 = exit_status o2
  ∧ g_cif_fname (final_state o1) = g_cif_fname (final_state o2)
  ∧ g_modeller (final_state o1) = g_modeller (final_state o2).
Proof.
  apply (platform_noninterference (tk := Toy.toolkit)
           (Toy.command_line "in.pdb" None None)
           (Toy.command_line "in.pdb" None (Some "CUDA"))
           0 7 Inputs.no_env Inputs.slurm_env Inputs.flat_fs
           eq_refl eq_refl eq_refl eq_refl I
           (ex_intro _ "CUDA" eq_refl)).
Defined.

(** C7: the toolkit's routines being functions of their arguments and of
    the random state, which line 67 sets from the seed: two runs with the
    same command line (hence the same seed) whose file systems agree on the
    input file, whatever else differs (other files, the environment, the
    random state before seeding), end with the same modeller: the same
    atoms and the same positions; and when both run to the end, the same
    text was written at the same path. *)
Theorem same_seed_same_topology `{tk : Toolkit}
    (cl : CommandLine) (rnd1 rnd2 : RandomState)
    (env1 env2 : Os.environment) (fs1 fs2 : Os.fsys) :
  fs1 !! cl_structure cl = fs2 !! cl_structure cl →
  let o1 := main cl rnd1 env1 fs1 in
  let o2 := main cl rnd2 env2 fs2 in
  g_modeller (final_state o1) = g_modeller (final_state o2)
  ∧ (running o1 → running o2 →
     ∃ path text,
       g_cif_fname (final_state o1) = Some path
       ∧ g_cif_fname (final_state o2) = Some path
       ∧ w_files (final_state o1) !! path = Some (Os.File text)
       ∧ w_files (final_state o2) !! path = Some (Os.File text)).
Proof.
  intros Hfs o1 o2.
  pose proof (to_write_same_input cl rnd1 rnd2 env1 env2 fs1 fs2 Hfs) as Hrel.
  assert (Hmain : ∀ rnd env fs,
             main cl rnd env fs
             = match state_after 8 (initial cl rnd env fs) with
               | Running g => stmt_write g
               | o => o
               end).
  { intros rnd env fs. unfold main, state_after.
    change script with (take 8 script ++ [stmt_write]) at 1.
    rewrite exec_app. destruct (exec (take 8 script) _); try done.
    simpl. by destruct (stmt_write g). }
  subst o1 o2. rewrite !Hmain.
  assert (Hkeep : preserves g_modeller stmt_write) by solve_preserves.
  destruct (state_after 8 (initial cl rnd1 env1 fs1)) as [g1| | |],
           (state_after 8 (initial cl rnd2 env2 fs2)) as [g2| | |];
    simpl in Hrel; try done.
  - destruct Hrel as (Hcmd & Hw & Hr & _). unfold work in Hw.
    injection Hw as _ _ _ _ _ Hm _ Hn _. split.
    + by rewrite !Hkeep.
    + intros Hrun1 Hrun2.
      destruct (stmt_write g1) as [g1'| | |] eqn:H1; try done.
      destruct (stmt_write g2) as [g2'| | |] eqn:H2; try done.
      apply stmt_write_running in H1 as (p1 & m1 & t1 & Hp1 & Hc1 & Hm1 & Ht1 & Hl1).
      apply stmt_write_running in H2 as (p2 & m2 & t2 & Hp2 & Hc2 & Hm2 & Ht2 & Hl2).
      assert (p1 = p2) as <- by congruence.
      assert (m1 = m2) as <- by congruence.
      assert (t1 = t2) as <- by congruence.
      exists p1, t1. simpl. done.
  - destruct Hrel as (_ & _ & Hw & _). unfold work in Hw.
    injection Hw as _ _ _ _ _ Hm _ _ _. done.
  - destruct Hrel as (_ & _ & Hw & _). unfold work in Hw.
    injection Hw as _ _ _ _ _ Hm _ _ _. done.
  - destruct Hrel as (_ & Hw & _). unfold work in Hw.
    injection Hw as _ _ _ _ _ Hm _ _ _. done.
Qed.

Lemma same_seed_same_topology_witness :
  let o1 := @main Toy.toolkit (Toy.command_line "in.pdb" (Some "bar") None)
              0 Inputs.no_env Inputs.flat_fs in
  let o2 := @main Toy.toolkit (Toy.command_line "in.pdb" (Some "bar") None)
              7 Inputs.slurm_env Inputs.nested_fs in
  Inputs.flat_fs !! "in.pdb" = Inputs.nested_fs !! "in.pdb"
  ∧ g_modeller (final_state o1) = g_modeller (final_state o2).
Proof.
  split; [reflexivity|].
  apply (same_seed_same_topology (tk := Toy.toolkit)
           (Toy.command_line "in.pdb" (Some "bar") None)
           0 7 Inputs.no_env Inputs.slurm_env Inputs.flat_fs Inputs.nested_fs
           eq_refl).
Defined.

(** * Further properties of the script *)

(** ** [get_filename]: the loop, the returned file system, directories *)

Section GetFilenameMore.
Implicit Types (fs : Os.fsys) (name rootname : string) (num : N).

Lemma get_filename_loop_more_fuel fuel k fs rootname num :
  get_filename_loop fuel fs rootname num ≠ OutOfFuel →
  get_filename_loop (fuel + k) fs rootname num
  = get_filename_loop fuel fs rootname num.
Proof.
  revert num. induction fuel as [|fuel IH]; intros num; simpl; [done|].
  destruct (Os.isfile fs (backup_name rootname num)); [apply IH | done].
Qed.

Lemma has_char_app (c : ascii) (a b : string) :
  has_char c (a +:+ b) = has_char c a || has_char c b.
Proof.
  induction a as [|x a IH]; [done|].
  rewrite str_app_cons. simpl. by rewrite IH, orb_assoc.
Qed.

Lemma rfind_from_absent (c : ascii) (s : string) (i last : Z) :
  has_char c s = false → Py.rfind_from c s i last = last.
Proof.
  revert i last. induction s as [|a s IH]; intros i last; simpl; [done|].
  intros [-> Hs]%orb_false_iff. by apply IH.
Qed.

Lemma dirname_no_slash (p : string) :
  has_char "/" p = false → OsPath.dirname p = "".
Proof.
  intros H. unfold OsPath.dirname, Py.rfind.
  by rewrite rfind_from_absent.
Qed.

(** The digits of a number hold no slash. *)
Lemma pretty_N_go_no_slash (x : N) (s : string) :
  has_char "/" s = false → has_char "/" (pretty_N_go x s) = false.
Proof.
  revert s. induction (N.lt_wf_0 x) as [x _ IH]; intros s Hs.
  assert (x = 0 ∨ 0 < x)%N as [->|Hx] by lia.
  - by rewrite pretty_N_go_0.
  - rewrite pretty_N_go_step by done. apply IH; [by apply N.div_lt|].
    simpl. rewrite Hs, orb_false_r.
    unfold pretty_N_char. by repeat case_match.
Qed.

Lemma str_N_no_slash (n : N) : has_char "/" (Py.str_N n) = false.
Proof.
  unfold Py.str_N, pretty, pretty_N. case_decide; [done|].
  by apply pretty_N_go_no_slash.
Qed.

Lemma backup_name_no_slash rootname num :
  has_char "/" rootname = false →
  has_char "/" (backup_name rootname num) = false.
Proof.
  intros H. unfold backup_name.
  by rewrite !has_char_app, H, str_N_no_slash.
Qed.

Lemma parent_error_no_slash fs (p : string) :
  has_char "/" p = false → Os.parent_error fs p = None.
Proof. intros H. unfold Os.parent_error. by rewrite dirname_no_slash. Qed.

(** What a successful [os.rename] of a file did. *)
Lemma rename_ok fs fs' (src dst : string) :
  Os.rename fs src dst = inr fs' →
  ∃ c, fs !! src = Some (Os.File c)
       ∧ fs !! dst ≠ Some Os.Dir
       ∧ fs' = <[dst := Os.File c]> (delete src fs).
Proof.
  unfold Os.rename. intros H. repeat case_match; simplify_eq/=; eauto.
Qed.

End GetFilenameMore.

(** X1: the unbounded loop of [get_filename] always ends, after at most one
    probe more than the file system has entries: with any larger bound the
    result is the same, and it is never the bound being reached. *)
Theorem get_filename_fuel_enough (fs : Os.fsys) (name : string) (fuel : nat) :
  (S (size fs) ≤ fuel)%nat →
  get_filename_fuel fuel fs name = get_filename fs name
  ∧ get_filename fs name ≠ OutOfFuel.
Proof.
  intros Hfuel. split; [|apply get_filename_total].
  unfold get_filename, get_filename_fuel.
  destruct (Os.isfile fs name); cbn [negb]; [|done].
  replace fuel with (S (size fs) + (fuel - S (size fs)))%nat by lia.
  rewrite get_filename_loop_more_fuel; [done|].
  destruct (free_backup_name fs name) as (n & Hn & Hfree).
  by apply (get_filename_loop_enough _ _ _ _ n).
Qed.

Lemma get_filename_fuel_enough_witness :
  get_filename_fuel 10 Inputs.flat_fs "bar.cif"
  = get_filename Inputs.flat_fs "bar.cif"
  ∧ get_filename Inputs.flat_fs "bar.cif" ≠ OutOfFuel.
Proof.
  apply (get_filename_fuel_enough Inputs.flat_fs "bar.cif" 10).
  vm_compute. lia.
Defined.

Lemma get_filename_ok (fs fs' : Os.fsys) (name p : string) :
  get_filename fs name = Ok (p, fs') →
  p = name
  ∧ Os.isfile fs' name = false
  ∧ (∀ q x, q ≠ name → fs !! q = Some x → fs' !! q = Some x)
  ∧ (Os.isfile fs name = false → fs' = fs)
  ∧ (∀ c, fs !! name = Some (Os.File c) →
          ∃ n, (1 ≤ n)%N
               ∧ (∀ m, (1 ≤ m < n)%N → Os.isfile fs (backup_name name m) = true)
               ∧ fs !! backup_name name n = None
               ∧ fs' !! backup_name name n = Some (Os.File c)
               ∧ fs' = <[backup_name name n := Os.File c]> (delete name fs)).
Proof.
  intros Hget. pose proof (get_filename_returns _ _ _ _ Hget) as ->.
  split; [done|].
  destruct (Os.isfile fs name) eqn:Hfile.
  - destruct (get_filename_present fs name Hfile)
      as (n & Hle & Hfree & Hbelow & Heq).
    rewrite Hget in Heq.
    destruct (Os.rename fs name (backup_name name n)) as [e|fs1] eqn:Hren;
      [done|]. injection Heq as ->.
    apply rename_ok in Hren as (c & Hc & Hdir & ->).
    pose proof (backup_name_ne name n) as Hne.
    assert (Hnone : fs !! backup_name name n = None).
    { unfold Os.isfile in Hfree.
      by destruct (fs !! backup_name name n) as [[?|]|]. }
    split_and!.
    + unfold Os.isfile. rewrite lookup_insert_ne by done.
      by rewrite lookup_delete_eq.
    + intros q x Hq Hx. rewrite lookup_insert_ne by congruence.
      by rewrite lookup_delete_ne.
    + done.
    + intros c' Hc'. assert (c' = c) as -> by congruence.
      exists n. split_and!; [done..| |done]. apply lookup_insert_eq.
  - rewrite (get_filename_absent _ _ Hfile) in Hget. injection Hget as <-.
    split_and!; [done..|].
    intros c Hc. unfold Os.isfile in Hfile. by rewrite Hc in Hfile.
Qed.

(** X2: whenever [get_filename] returns, it returns the path it was given;
    no regular file is at that path any more; every other entry of the file
    system is as before; and a file that was at the path is now, with its
    content, under the backup name of the smallest number whose backup name
    was not a file, a name nothing was stored under. *)
Theorem get_filename_returns_safely (fs fs' : Os.fsys) (name p : string) :
  get_filename fs name = Ok (p, fs') →
  p = name
  ∧ Os.isfile fs' name = false
  ∧ (∀ q x, q ≠ name → fs !! q = Some x → fs' !! q = Some x)
  ∧ (Os.isfile fs name = false → fs' = fs)
  ∧ (∀ c, fs !! name = Some (Os.File c) →
          ∃ n, (1 ≤ n)%N
               ∧ (∀ m, (1 ≤ m < n)%N → Os.isfile fs (backup_name name m) = true)
               ∧ fs !! backup_name name n = None
               ∧ fs' !! backup_name name n = Some (Os.File c)
               ∧ fs' = <[backup_name name n := Os.File c]> (delete name fs)).
Proof. apply get_filename_ok. Qed.

Lemma get_filename_returns_safely_witness :
  ∃ fs', get_filename Inputs.flat_fs "bar.cif" = Ok ("bar.cif", fs')
         ∧ Os.isfile fs' "bar.cif" = false
         ∧ ∃ n, fs' !! backup_name "bar.cif" n = Some (Os.File "old").
Proof.
  eexists. split; [reflexivity|].
  destruct (get_filename_returns_safely Inputs.flat_fs _ "bar.cif" "bar.cif"
              eq_refl) as (_ & Hfree & _ & _ & Hold).
  split; [exact Hfree|].
  destruct (Hold "old" eq_refl) as (n & _ & _ & _ & Hn & _).
  exists n. exact Hn.
Defined.

Lemma basename_no_slash (p : string) :
  has_char "/" p = false → OsPath.basename p = p.
Proof.
  intros H. unfold OsPath.basename, Py.rfind.
  by rewrite rfind_from_absent.
Qed.

Lemma short_name_not_too_long (p : string) :
  has_char "/" p = false →
  (String.length p ≤ Os.NAME_MAX)%nat →
  Os.name_too_long p = false.
Proof.
  intros Hslash Hlen. unfold Os.name_too_long.
  rewrite basename_no_slash by done. unfold Os.NAME_MAX, Os.PATH_MAX in *.
  apply orb_false_iff. split; [apply Nat.ltb_ge | apply Nat.leb_gt]; lia.
Qed.

(** X3: for an output path in the working directory (no slash in it) at
    which a file exists, when no directory bears one of its backup names
    and the backup names the loop can reach (those of the numbers up to one
    more than the file system has entries) fit in the 255 bytes of a file
    name, [get_filename] does return: the file is kept under the first free
    backup name and the path is free for the new output. *)
Theorem get_filename_in_working_directory (fs : Os.fsys) (name c : string) :
  has_char "/" name = false →
  fs !! name = Some (Os.File c) →
  (∀ n, fs !! backup_name name n ≠ Some Os.Dir) →
  (∀ n, (1 ≤ n ≤ N.of_nat (S (size fs)))%N →
        (String.length (backup_name name n) ≤ Os.NAME_MAX)%nat) →
  ∃ n fs',
    (1 ≤ n ≤ N.of_nat (S (size fs)))%N
    ∧ (∀ m, (1 ≤ m < n)%N → Os.isfile fs (backup_name name m) = true)
    ∧ fs !! backup_name name n = None
    ∧ get_filename fs name = Ok (name, fs')
    ∧ fs' !! name = None
    ∧ fs' !! backup_name name n = Some (Os.File c).
Proof.
  intros Hslash Hname Hdir Hlen.
  destruct (get_filename_backup fs name c Hname) as (n & fs' & H).
  - intros n Hn. split_and!.
    + apply parent_error_no_slash. by apply backup_name_no_slash.
    + apply Hdir.
    + apply short_name_not_too_long; [by apply backup_name_no_slash | auto].
  - exists n, fs'. destruct H as (Hn & Hnone & Hbelow & Hget & Hfree & Hold & _).
    split; [exact Hn|]. split_and!; done.
Qed.

Lemma get_filename_in_working_directory_witness :
  ∃ n fs', get_filename Inputs.flat_fs "bar.cif" = Ok ("bar.cif", fs')
           ∧ fs' !! backup_name "bar.cif" n = Some (Os.File "old").
Proof.
  destruct (get_filename_in_working_directory Inputs.flat_fs "bar.cif" "old")
    as (n & fs' & _ & _ & _ & Hget & _ & Hold).
  - reflexivity.
  - reflexivity.
  - intros n H. unfold Inputs.flat_fs in H.
    repeat (rewrite lookup_insert in H; case_decide; [discriminate|]).
    rewrite lookup_singleton in H. case_decide; discriminate.
  - intros n Hn.
    assert (N.of_nat (S (size Inputs.flat_fs)) = 4%N) as Hsize by reflexivity.
    rewrite Hsize in Hn.
    assert (n = 1 ∨ n = 2 ∨ n = 3 ∨ n = 4)%N as Hcases by lia.
    destruct Hcases as [-> | [-> | [-> | ->]]]; vm_compute; lia.
  - exists n, fs'. split; [exact Hget | exact Hold].
Defined.

(** ** The run as a whole: how it ends and what it does to the files *)

Section RunMore.
Context {tk : Toolkit}.
Implicit Types (g : Globals) (cl : CommandLine).

Lemma exec_single (st : stmt) g : exec [st] g = st g.
Proof. simpl. by destruct (st g). Qed.

Lemma exec_outcomes (P : outcome → Prop) (prog : list stmt) :
  (∀ g, P (Running g)) →
  Forall (λ st, ∀ g, P (st g)) prog →
  ∀ g, P (exec prog g).
Proof.
  intros Hrun. induction 1 as [|st prog Hst _ IH]; intros g; simpl; [done|].
  specialize (Hst g). by destruct (st g).
Qed.

(** The script ends by reaching its end, by [sys.exit(1)], or by an
    exception. *)
Lemma main_outcome cl rnd env fs :
  match main cl rnd env fs with
  | Running _ | Raised _ _ => True
  | Exited c _ => c = 1
  | Stuck _ => False
  end.
Proof.
  apply (exec_outcomes (λ o, match o with
                             | Running _ | Raised _ _ => True
                             | Exited c _ => c = 1
                             | Stuck _ => False
                             end)); [done|].
  repeat constructor; intros g.
  all: try (stmt_cases; done).
  unfold stmt_write. pose proof (get_filename_total (w_files g)) as Htot.
  repeat case_match; try done. by edestruct Htot.
Qed.

(** Before line 130 the file system is as it was found. *)
Lemma state_after_files (k : nat) g :
  (k ≤ 8)%nat → w_files (final_state (state_after k g)) = w_files g.
Proof.
  intros Hk. unfold state_after.
  replace k with (k `min` 8)%nat by lia. rewrite <- take_take.
  apply (exec_preserves w_files).
  apply Forall_take, before_write_keeps_files.
Qed.

Lemma main_from_line_130 cl rnd env fs :
  main cl rnd env fs
  = match state_after 8 (initial cl rnd env fs) with
    | Running g => stmt_write g
    | o => o
    end.
Proof.
  unfold main, state_after.
  change script with (take 8 script ++ [stmt_write]) at 1.
  rewrite exec_app. destruct (exec (take 8 script) _); try done.
  apply exec_single.
Qed.

Lemma open_w_ok (fs fs' : Os.fsys) (p : string) :
  Os.open_w fs p = inr fs' → fs' = <[p := Os.File ""]> fs.
Proof. unfold Os.open_w. intros H. by repeat case_match; simplify_eq/=. Qed.

(** Lines 130-133 destroy no file: one that was there is there still, or
    it was at the output path and is now under a backup name. *)
Lemma stmt_write_keeps_every_file g (q c : string) :
  w_files g !! q = Some (Os.File c) →
  let g' := final_state (stmt_write g) in
  g__fname g' = g__fname g
  ∧ (w_files g' !! q = Some (Os.File c)
     ∨ (g__fname g = Some q
        ∧ ∃ n, w_files g' !! backup_name q n = Some (Os.File c))).
Proof.
  intros Hq g'. subst g'. split.
  { assert (H : preserves g__fname stmt_write) by solve_preserves. apply H. }
  unfold stmt_write.
  destruct (g__fname g) as [name|] eqn:Hname; [|by left].
  destruct (get_filename (w_files g) name) as [[cif fs1]|e|] eqn:Hget;
    [|by left..].
  apply get_filename_ok in Hget as (-> & _ & Hother & _ & Hold).
  assert (Hcases :
            (q ≠ name ∧ fs1 !! q = Some (Os.File c))
            ∨ (q = name ∧ ∃ n, fs1 !! backup_name q n = Some (Os.File c))).
  { destruct (decide (q = name)) as [->|Hne]; [right | left; eauto].
    destruct (Hold c Hq) as (n & _ & _ & _ & Hn & _). eauto. }
  assert (Hins : ∀ x, (<[name := x]> fs1 !! q = Some (Os.File c) ∧ q ≠ name)
                      ∨ (q = name
                         ∧ ∃ n, <[name := x]> fs1 !! backup_name q n
                                = Some (Os.File c))).
  { intros x. destruct Hcases as [[Hne Hl]|[-> [n Hn]]].
    - left. by rewrite lookup_insert_ne.
    - right. split; [done|]. exists n.
      rewrite lookup_insert_ne; [done|]. apply not_eq_sym, backup_name_ne. }
  simpl. destruct (Os.open_w fs1 name) as [e|fs2] eqn:Hopen; simpl.
  { destruct Hcases as [[_ ?]|[-> ?]]; [by left | by right]. }
  apply open_w_ok in Hopen as ->.
  destruct (g_modeller g) as [m|]; simpl.
  - destruct (writeFile _ _) as [e|text]; simpl.
    + destruct (Hins (Os.File "")) as [[? _]|[-> ?]]; [by left | by right].
    + rewrite insert_insert_eq.
      destruct (Hins (Os.File text)) as [[? _]|[-> ?]]; [by left | by right].
  - destruct (Hins (Os.File "")) as [[? _]|[-> ?]]; [by left | by right].
Qed.

End RunMore.

(** X4: once the command line has been parsed (from line 67 on), the run
    always ends, with exit status 0 or 1: 0 exactly when the script ran to
    its last line, 1 after [sys.exit(1)] or an uncaught exception. *)
Theorem exit_status_zero_or_one `{tk : Toolkit}
    (cl : CommandLine) (rnd : RandomState) (env : Os.environment)
    (fs : Os.fsys) :
  let o := main cl rnd env fs in
  (exit_status o = Some 0 ∧ running o)
  ∨ (exit_status o = Some 1 ∧ ¬ running o).
Proof.
  intros o. subst o. pose proof (main_outcome cl rnd env fs) as H.
  destruct (main cl rnd env fs) as [g|c g|e g|g]; simpl in *.
  - by left.
  - subst c. right. split; [done | tauto].
  - right. split; [done | tauto].
  - done.
Qed.

(** X5: the run destroys no file.  A regular file that exists when the
    script starts exists when it ends, with the same content: at its path,
    or, if its path is the output path, under a backup name of that path.
    This holds however the run ends. *)
Theorem run_keeps_every_file `{tk : Toolkit}
    (cl : CommandLine) (rnd : RandomState) (env : Os.environment)
    (fs : Os.fsys) (q c : string) :
  fs !! q = Some (Os.File c) →
  let g := final_state (main cl rnd env fs) in
  w_files g !! q = Some (Os.File c)
  ∨ (g__fname g = Some q
     ∧ ∃ n, w_files g !! backup_name q n = Some (Os.File c)).
Proof.
  intros Hq g. subst g. rewrite main_from_line_130.
  pose proof (state_after_files 8 (initial cl rnd env fs) (le_n 8)) as Hfs.
  simpl in Hfs.
  destruct (state_after 8 (initial cl rnd env fs)) as [g8| | |];
    simpl in Hfs; subst fs; try by left.
  destruct (stmt_write_keeps_every_file g8 q c Hq) as [Hname [?|[? ?]]];
    [by left|].
  right. split; [congruence | done].
Qed.

Lemma run_keeps_every_file_witness :
  let g := final_state (@main Toy.toolkit
                          (Toy.command_line "in.pdb" (Some "bar") None)
                          0 Inputs.no_env Inputs.flat_fs) in
  w_files g !! "bar.cif" = Some (Os.File "old")
  ∨ (g__fname g = Some "bar.cif"
     ∧ ∃ n, w_files g !! backup_name "bar.cif" n = Some (Os.File "old")).
Proof.
  apply (run_keeps_every_file (tk := Toy.toolkit)
           (Toy.command_line "in.pdb" (Some "bar") None)
           0 Inputs.no_env Inputs.flat_fs "bar.cif" "old").
  reflexivity.
Defined.

(** X6: the file system is only touched from line 130 on: at every earlier
    point of the run it is as it was found, and a run that ends before
    line 130 (unknown platform, unsupported extension, unreadable or
    unparsable structure, unknown forcefield, failure to add hydrogens)
    ends with exit status 1 and the file system unchanged. *)
Theorem files_untouched_before_line_130 `{tk : Toolkit}
    (cl : CommandLine) (rnd : RandomState) (env : Os.environment)
    (fs : Os.fsys) (k : nat) :
  (k ≤ 8)%nat →
  let g0 := initial cl rnd env fs in
  w_files (final_state (state_after k g0)) = fs
  ∧ (¬ running (state_after 8 g0) →
     main cl rnd env fs = state_after 8 g0
     ∧ w_files (final_state (main cl rnd env fs)) = fs
     ∧ exit_status (main cl rnd env fs) = Some 1).
Proof.
  intros Hk g0. split; [by apply (state_after_files k g0)|].
  intros Hstop.
  pose proof (state_after_files 8 g0 (le_n 8)) as Hfs.
  pose proof (main_outcome cl rnd env fs) as Hout.
  rewrite main_from_line_130 in *. fold g0 in Hout |- *.
  destruct (state_after 8 g0) as [g8|c g8|e g8|g8]; simpl in *;
    [tauto | by subst | done | done].
Qed.

Lemma files_untouched_before_line_130_witness :
  let o := @main Toy.toolkit (Toy.command_line "in.PDB" None None)
             0 Inputs.no_env Inputs.flat_fs in
  w_files (final_state o) = Inputs.flat_fs ∧ exit_status o = Some 1.
Proof.
  destruct (files_untouched_before_line_130 (tk := Toy.toolkit)
              (Toy.command_line "in.PDB" None None)
              0 Inputs.no_env Inputs.flat_fs 8 (le_n 8)) as (_ & Hstop).
  destruct Hstop as (_ & Hfs & Hexit); [intros []|].
  split; [exact Hfs | exact Hexit].
Defined.

(** X7: a platform name the toolkit does not know (the empty name
    included: only an absent [--platform] skips the lookup) ends the run at
    line 71 with the toolkit's exception, before anything is logged, read
    or written. *)
Theorem unknown_platform_fails_first `{tk : Toolkit}
    (cl : CommandLine) (rnd : RandomState) (env : Os.environment)
    (fs : Os.fsys) (n : string) (e : exn) :
  cl_platform cl = Some n →
  getPlatformByName n = inl e →
  ∃ g, main cl rnd env fs = Raised e g
       ∧ w_trace g = [Call_seed (default 917 (cl_seed cl));
                      Call_getPlatformByName n]
       ∧ w_files g = fs
       ∧ g_properties g = None
       ∧ g_cmd g = parse_args cl.
Proof.
  intros Hn He. destruct cl as [path out ff pl sd]. simpl in Hn. subst pl.
  unfold main. simpl. unfold stmt_platform. simpl. rewrite He.
  eexists. split; [reflexivity|]. done.
Qed.

Lemma unknown_platform_fails_first_witness :
  ∃ e g, @main Toy.toolkit (Toy.command_line "in.pdb" None (Some ""))
           0 Inputs.no_env Inputs.flat_fs = Raised e g
         ∧ w_files g = Inputs.flat_fs.
Proof.
  destruct (unknown_platform_fails_first (tk := Toy.toolkit)
              (Toy.command_line "in.pdb" None (Some ""))
              0 Inputs.no_env Inputs.flat_fs ""
              (ToolkitError "There is no registered Platform with that name")
              eq_refl eq_refl) as (g & Hg & _ & Hfs & _).
  eexists _, g. split; [exact Hg | exact Hfs].
Defined.

(** ** Names: the extension, the output path *)

Section NamesMore.
Implicit Types (p stem : string) (out : option string).

(** [fname + fext == cmd.structure] *)
Lemma splitext_join p : (OsPath.splitext p).1 +:+ (OsPath.splitext p).2 = p.
Proof.
  unfold OsPath.splitext. case_match; simpl.
  - apply str_take_drop.
  - apply str_app_empty_r.
Qed.

Lemma select_parser_some (fext : string) (k : parser_class) :
  select_parser fext = Some k →
  (fext = ".pdb" ∧ k = PDBFile) ∨ (fext = ".cif" ∧ k = PDBxFile).
Proof.
  unfold select_parser.
  destruct (String.eqb_spec fext ".pdb") as [->|_]; [intros [= <-]; by left|].
  destruct (String.eqb_spec fext ".cif") as [->|_]; [intros [= <-]; by right|].
  done.
Qed.

Lemma endswith_length (s suffix : string) :
  Py.endswith s suffix = true → (String.length suffix ≤ String.length s)%nat.
Proof.
  unfold Py.endswith. intros [H _]%andb_true_iff. by apply Nat.leb_le.
Qed.

Lemma output_fname_endswith out stem :
  Py.endswith (output_fname out stem) ".cif" = true.
Proof.
  assert (Hdefault : Py.endswith (stem +:+ "_H" +:+ ".cif") ".cif" = true).
  { rewrite <- str_app_assoc. apply endswith_app. }
  unfold output_fname. destruct out as [o|]; [|done].
  destruct (Py.truthy o); [|done].
  destruct (Py.endswith o ".cif") eqn:Ho; simpl; [done|]. apply endswith_app.
Qed.

Lemma output_fname_nonempty out stem : output_fname out stem ≠ "".
Proof.
  intros H. pose proof (endswith_length _ _ (output_fname_endswith out stem)) as Hl.
  rewrite H in Hl. simpl in Hl. lia.
Qed.

End NamesMore.

(** X8: whatever [--output] and the input are, the output path ends in
    [.cif]; and giving the derived path back as [--output] yields that same
    path. *)
Theorem output_fname_ends_in_cif (out : option string) (stem stem' : string) :
  Py.endswith (output_fname out stem) ".cif" = true
  ∧ (∃ p, output_fname out stem = p +:+ ".cif")
  ∧ output_fname (Some (output_fname out stem)) stem' = output_fname out stem.
Proof.
  pose proof (output_fname_endswith out stem) as Hends.
  split_and!; [done | by apply endswith_inv |].
  rewrite output_fname_given by apply output_fname_nonempty.
  by rewrite Hends.
Qed.

(** ** The run, statement by statement *)

Section Pipeline.
Context {tk : Toolkit}.
Implicit Types (g : Globals) (cl : CommandLine).

Lemma running_preserved {A} (f : Globals → A) (prog : list stmt) g g' :
  Forall (preserves f) prog → exec prog g = Running g' → f g' = f g.
Proof.
  intros Hall Hrun.
  by apply (preserves_running f (exec prog) _ _ (exec_preserves _ _ Hall)).
Qed.

(** What holds of a run that gets to line 130. *)
Lemma run_to_line_130 cl rnd env fs g8 :
  state_after 8 (initial cl rnd env fs) = Running g8 →
  ∃ k text s ff m' r,
    select_parser (OsPath.splitext (cl_structure cl)).2 = Some k
    ∧ fs !! cl_structure cl = Some (Os.File text)
    ∧ parse k text = inr s
    ∧ load_forcefield (default "amber99sbildn.xml" (cl_forcefield cl)) = inr ff
    ∧ (let m := Build_Modeller (s_topology s) (s_positions s) in
       addHydrogens ff pH_7_0 (Modeller_delete (hydrogens_of m) m)
         (random_seed (default 917 (cl_seed cl))) = inr (m', r))
    ∧ g_modeller g8 = Some m'
    ∧ g_parser g8 = Some k
    ∧ g__fname g8
      = Some (output_fname (cl_output cl) (OsPath.splitext (cl_structure cl)).1)
    ∧ w_files g8 = fs.
Proof.
  intros H8.
  pose proof (run_fname _ _ _ _ _ H8) as Hname.
  pose proof (state_after_files 8 (initial cl rnd env fs) (le_n 8)) as Hfs8.
  rewrite H8 in Hfs8. simpl in Hfs8.
  unfold state_after in H8.
  change (take 8 script)
    with ([stmt_seed] ++ take 3 (drop 1 script) ++ [stmt_format]
            ++ [stmt_read] ++ [stmt_hydrogens] ++ [stmt_fname]) in H8.
  apply exec_app_running in H8 as (g1 & H1%exec_single_running & H8).
  apply exec_app_running in H8 as (g4 & H4 & H8).
  apply exec_app_running in H8 as (g5 & H5%exec_single_running & H8).
  apply exec_app_running in H8 as (g6 & H6%exec_single_running & H8).
  apply exec_app_running in H8 as (g7 & H7%exec_single_running
                                     & Hf%exec_single_running).
  injection H1 as <-.
  set (seen := λ g, (cli_fields (g_cmd g), w_random g, w_files g)).
  assert (H04 : seen g4 = (cli_fields (parse_args cl),
                           random_seed (default 917 (cl_seed cl)), fs)).
  { rewrite (running_preserved seen (take 3 (drop 1 script)) _ _
               ltac:(repeat constructor; solve_preserves) H4). done. }
  assert (H45 : seen g5 = seen g4).
  { apply (preserves_running seen stmt_format); [solve_preserves | done]. }
  set (kept := λ g, (g_modeller g, g_parser g)).
  assert (H78 : kept g8 = kept g7).
  { apply (preserves_running kept stmt_fname); [solve_preserves | done]. }
  assert (H57 : g_parser g7 = g_parser g5).
  { apply (running_preserved g_parser [stmt_read; stmt_hydrogens]).
    - repeat constructor; solve_preserves.
    - simpl. rewrite H6. simpl. by destruct (stmt_hydrogens g6). }
  apply stmt_format_running in H5 as (_ & _ & Hparser & _).
  apply stmt_read_running in H6
    as (k & text & s & ff & Hk & Htext & Hparse & Hff & _ & Hgff & Hm & Hr6).
  destruct (stmt_hydrogens_spec g6 _ ff Hm Hgff) as (g' & _ & _ & Hst).
  rewrite H7 in Hst.
  destruct (addHydrogens _ _ _ _) as [e|[m' r]] eqn:Hadd; [done|].
  injection Hst as ->.
  subst seen kept. unfold cli_fields in *. simpl in *.
  destruct (g_cmd g4) as [s4 o4 f4 p4 d4], (g_cmd g5) as [s5 o5 f5 p5 d5].
  simplify_eq/=.
  exists k, text, s, ff, m', r. split_and!; try done; congruence.
Qed.


(** A run that gets past line 133: the file system is the one
    [get_filename] left, with the text at the path. *)
Lemma stmt_write_running_files g g' :
  stmt_write g = Running g' →
  ∃ path m text fs1,
    g__fname g = Some path
    ∧ get_filename (w_files g) path = Ok (path, fs1)
    ∧ g_modeller g = Some m
    ∧ writeFile (topology m) (positions m) = inr text
    ∧ g_cif_fname g' = Some path
    ∧ w_files g' = <[path := Os.File text]> fs1.
Proof.
  unfold stmt_write. intros H. repeat case_match; simplify_eq/=.
  match goal with
  | H : get_filename _ _ = Ok _ |- _ =>
      pose proof (get_filename_returns _ _ _ _ H) as ->
  end.
  match goal with
  | H : Os.open_w _ _ = inr _ |- _ => apply open_w_ok in H as ->
  end.
  eexists _, _, _, _. split_and!; [done..|]. apply insert_insert_eq.
Qed.

(** A run that reaches the end of the script. *)
Lemma main_running cl rnd env fs g :
  main cl rnd env fs = Running g →
  ∃ g8, state_after 8 (initial cl rnd env fs) = Running g8
        ∧ stmt_write g8 = Running g.
Proof.
  rewrite main_from_line_130.
  destruct (state_after 8 (initial cl rnd env fs)) as [g8| | |]; [eauto|done..].
Qed.

Lemma platform_properties_entry (name : string) (env : Os.environment)
    (k v : string) :
  platform_properties name env !! k = Some v →
  v ≠ ""
  ∧ ((name = "CUDA" ∧ k = "CudaPrecision" ∧ v = "mixed")
     ∨ (name = "CUDA" ∧ k = "DeviceIndex"
        ∧ env !! "CUDA_VISIBLE_DEVICES" = Some v)
     ∨ (name = "CPU" ∧ k = "Threads"
        ∧ env !! "SLURM_CPUS_PER_TASK" = Some v)).
Proof.
  unfold platform_properties, Os.getenv, Py.truthy.
  destruct (String.eqb_spec name "CUDA") as [->|_].
  - destruct (env !! "CUDA_VISIBLE_DEVICES") as [ids|] eqn:Hids.
    + destruct (String.eqb_spec ids "") as [->|Hne]; simpl.
      * intros [<- <-]%lookup_singleton_Some. split; [done | by left].
      * intros [[<- <-]|[_ [<- <-]%lookup_singleton_Some]]%lookup_insert_Some.
        -- split; [done | right; by left].
        -- split; [done | by left].
    + intros [<- <-]%lookup_singleton_Some. split; [done | by left].
  - destruct (String.eqb_spec name "CPU") as [->|_]; [|by rewrite lookup_empty].
    destruct (env !! "SLURM_CPUS_PER_TASK") as [n|] eqn:Hn;
      [|by rewrite lookup_empty].
    destruct (String.eqb_spec n "") as [->|Hne]; simpl;
      [by rewrite lookup_empty|].
    intros [<- <-]%lookup_singleton_Some. split; [done | right; by right].
Qed.

End Pipeline.

(** X9: a structure path that passes the format test ends, letter for
    letter, in the extension that selected its parser: it is the stem bound
    to [fname] followed by [.pdb], with the PDB parser, or by [.cif], with
    the mmCIF parser. *)
Theorem accepted_path_ends_with_extension `{tk : Toolkit}
    (cl : CommandLine) (rnd : RandomState) (env : Os.environment)
    (fs : Os.fsys) :
  let o := state_after 5 (initial cl rnd env fs) in
  running o →
  ∃ stem,
    g_fname (final_state o) = Some stem
    ∧ ((cl_structure cl = stem +:+ ".pdb"
        ∧ g_parser (final_state o) = Some PDBFile)
       ∨ (cl_structure cl = stem +:+ ".cif"
          ∧ g_parser (final_state o) = Some PDBxFile)).
Proof.
  intros o Hrun. subst o.
  destruct (state_after 5 _) as [g5| | |] eqn:H5; try done. clear Hrun.
  unfold state_after in H5.
  change (take 5 script) with (take 4 script ++ [stmt_format]) in H5.
  apply exec_app_running in H5 as (g4 & H4 & H5%exec_single_running).
  assert (Hc : cli_fields (g_cmd g4) = cli_fields (parse_args cl)).
  { apply (preserves_running (λ g, cli_fields (g_cmd g)) _ _ _
             (exec_preserves _ _ (Forall_take _ 4 _ script_keeps_cli_fields)) H4). }
  apply stmt_format_running in H5 as (Hfname & Hfext & Hparser & [k Hk]).
  unfold cli_fields in Hc. simpl in Hc. injection Hc as Hs _ _ _.
  rewrite Hs in *. simpl.
  exists (OsPath.splitext (cl_structure cl)).1. split; [done|].
  rewrite Hk in Hparser. symmetry in Hparser.
  pose proof (splitext_join (cl_structure cl)) as Hjoin.
  apply select_parser_some in Hparser as [[Hext ->]|[Hext ->]];
    rewrite Hext in Hjoin; [left | right]; by rewrite Hk.
Qed.

Lemma accepted_path_ends_with_extension_witness :
  let o := @state_after Toy.toolkit 5
             (@initial Toy.toolkit (Toy.command_line "in.pdb" None None)
                0 Inputs.no_env Inputs.flat_fs) in
  running o ∧ ∃ stem, g_fname (final_state o) = Some stem.
Proof.
  split; [exact I|].
  destruct (accepted_path_ends_with_extension (tk := Toy.toolkit)
              (Toy.command_line "in.pdb" None None)
              0 Inputs.no_env Inputs.flat_fs I) as (stem & Hstem & _).
  exists stem. exact Hstem.
Defined.

(** X10: every entry of the properties mapping has a non-empty value and
    a known origin: [CudaPrecision] is [mixed] on the CUDA platform,
    [DeviceIndex] is the value of [CUDA_VISIBLE_DEVICES] on the CUDA
    platform, [Threads] is the value of [SLURM_CPUS_PER_TASK] on the CPU
    platform.  So a variable that is set but empty adds no entry, and no
    other key ever appears. *)
Theorem properties_entries_origin `{tk : Toolkit}
    (cl : CommandLine) (rnd : RandomState) (env : Os.environment)
    (fs : Os.fsys) (m : gmap string string) (k v : string) :
  g_properties (final_state (main cl rnd env fs)) = Some m →
  m !! k = Some v →
  v ≠ ""
  ∧ ∃ n p,
      cl_platform cl = Some n
      ∧ getPlatformByName n = inr p
      ∧ ((getName p = "CUDA" ∧ k = "CudaPrecision" ∧ v = "mixed")
         ∨ (getName p = "CUDA" ∧ k = "DeviceIndex"
            ∧ env !! "CUDA_VISIBLE_DEVICES" = Some v)
         ∨ (getName p = "CPU" ∧ k = "Threads"
            ∧ env !! "SLURM_CPUS_PER_TASK" = Some v)).
Proof.
  rewrite run_properties. intros Hm Hk.
  destruct (cl_platform cl) as [n|]; [|by simplify_eq].
  destruct (getPlatformByName n) as [e|p] eqn:Hp; [done|].
  injection Hm as <-.
  apply platform_properties_entry in Hk as [Hv Horigin].
  split; [done|]. by exists n, p.
Qed.

Lemma properties_entries_origin_witness :
  "0,1" ≠ ""
  ∧ ∃ n p, cl_platform (Toy.command_line "in.pdb" None (Some "CUDA")) = Some n
           ∧ @getPlatformByName Toy.toolkit n = inr p.
Proof.
  destruct (properties_entries_origin (tk := Toy.toolkit)
              (Toy.command_line "in.pdb" None (Some "CUDA"))
              0 Inputs.slurm_env Inputs.flat_fs
              (<["DeviceIndex" := "0,1"]> {[ "CudaPrecision" := "mixed" ]})
              "DeviceIndex" "0,1")
    as (Hv & n & p & Hn & Hp & _); [reflexivity | reflexivity |].
  split; [exact Hv|]. exists n, p. split; [exact Hn | exact Hp].
Defined.

(** X11: a run that reaches the end of the script (exit status 0) did the
    whole pipeline: the extension selected a parser, the structure path
    held a file, its text was parsed, the forcefield named on the command
    line (or the default) was loaded, [addHydrogens] succeeded on the
    hydrogen-free modeller with pH 7.0 and the random state seeded from
    [--seed] (or 917), and the text the writer gives for its result is the
    content of the file at the output path, which is [cif_fname]. *)
Theorem successful_run_writes_the_result `{tk : Toolkit}
    (cl : CommandLine) (rnd : RandomState) (env : Os.environment)
    (fs : Os.fsys) :
  let o := main cl rnd env fs in
  running o →
  ∃ k text s ff m' r out,
    select_parser (OsPath.splitext (cl_structure cl)).2 = Some k
    ∧ fs !! cl_structure cl = Some (Os.File text)
    ∧ parse k text = inr s
    ∧ load_forcefield (default "amber99sbildn.xml" (cl_forcefield cl)) = inr ff
    ∧ (let m := Build_Modeller (s_topology s) (s_positions s) in
       addHydrogens ff pH_7_0 (Modeller_delete (hydrogens_of m) m)
         (random_seed (default 917 (cl_seed cl))) = inr (m', r))
    ∧ writeFile (topology m') (positions m') = inr out
    ∧ (let path := output_fname (cl_output cl)
                     (OsPath.splitext (cl_structure cl)).1 in
       g_cif_fname (final_state o) = Some path
       ∧ w_files (final_state o) !! path = Some (Os.File out)).
Proof.
  intros o Hrun. subst o.
  destruct (main cl rnd env fs) as [g| | |] eqn:Hmain; try done. clear Hrun.
  apply main_running in Hmain as (g8 & H8 & Hw).
  apply run_to_line_130 in H8
    as (k & text & s & ff & m' & r & Hk & Htext & Hparse & Hff & Hadd
        & Hm & _ & Hname & _).
  apply stmt_write_running in Hw
    as (path & m & out & Hpath & Hcif & Hm' & Hout & Hfile).
  assert (m = m') as -> by congruence.
  assert (path = output_fname (cl_output cl)
                   (OsPath.splitext (cl_structure cl)).1) as -> by congruence.
  exists k, text, s, ff, m', r, out. split_and!; done.
Qed.

Lemma successful_run_writes_the_result_witness :
  let o := @main Toy.toolkit (Toy.command_line "in.pdb" (Some "bar") None)
             0 Inputs.no_env Inputs.flat_fs in
  running o ∧ ∃ out, w_files (final_state o) !! "bar.cif" = Some (Os.File out).
Proof.
  split; [exact I|].
  destruct (successful_run_writes_the_result (tk := Toy.toolkit)
              (Toy.command_line "in.pdb" (Some "bar") None)
              0 Inputs.no_env Inputs.flat_fs I)
    as (k & text & s & ff & m' & r & out & _ & _ & _ & _ & _ & _ & _ & Hout).
  exists out. exact Hout.
Defined.

(** X12: without [--output] (or with an empty one), in a run that gets to
    line 130, the output path is the structure path with its extension
    [.pdb] or [.cif] replaced by [_H.cif]; it differs from the structure
    path, and the input file is still at its path, with its content, when
    the run ends. *)
Theorem default_output_beside_input `{tk : Toolkit}
    (cl : CommandLine) (rnd : RandomState) (env : Os.environment)
    (fs : Os.fsys) :
  Py.truthy_opt (cl_output cl) = false →
  running (state_after 8 (initial cl rnd env fs)) →
  let g := final_state (main cl rnd env fs) in
  ∃ stem ext c,
    cl_structure cl = stem +:+ ext
    ∧ (ext = ".pdb" ∨ ext = ".cif")
    ∧ g__fname g = Some (stem +:+ "_H.cif")
    ∧ stem +:+ "_H.cif" ≠ cl_structure cl
    ∧ fs !! cl_structure cl = Some (Os.File c)
    ∧ w_files g !! cl_structure cl = Some (Os.File c).
Proof.
  intros Hout Hrun g. subst g.
  destruct (state_after 8 _) as [g8| | |] eqn:H8; try done. clear Hrun.
  rewrite main_from_line_130, H8.
  apply run_to_line_130 in H8
    as (k & text & s & ff & m' & r & Hk & Htext & _ & _ & _ & _ & _
        & Hname & Hfs).
  rewrite (output_fname_default _ _ Hout) in Hname.
  pose proof (splitext_join (cl_structure cl)) as Hjoin.
  set (stem := (OsPath.splitext (cl_structure cl)).1) in *.
  set (ext := (OsPath.splitext (cl_structure cl)).2) in *.
  assert (Hext : ext = ".pdb" ∨ ext = ".cif").
  { apply select_parser_some in Hk as [[? _]|[? _]]; auto. }
  assert (Hne : stem +:+ "_H.cif" ≠ cl_structure cl).
  { rewrite <- Hjoin. intros H%(f_equal String.length).
    rewrite !str_length_app in H. destruct Hext as [-> | ->]; simpl in H; lia. }
  rewrite <- Hfs in Htext.
  destruct (stmt_write_keeps_every_file g8 _ _ Htext) as [Hsame Hkept].
  exists stem, ext, text. rewrite Hfs in Htext.
  split_and!; [done | done | by rewrite Hsame | done | done |].
  destruct Hkept as [?|[Hclash _]]; [done|].
  rewrite Hname in Hclash. by injection Hclash.
Qed.

Lemma default_output_beside_input_witness :
  let g := final_state (@main Toy.toolkit (Toy.command_line "in.pdb" None None)
                          0 Inputs.no_env Inputs.flat_fs) in
  ∃ stem, g__fname g = Some (stem +:+ "_H.cif").
Proof.
  destruct (default_output_beside_input (tk := Toy.toolkit)
              (Toy.command_line "in.pdb" None None)
              0 Inputs.no_env Inputs.flat_fs eq_refl I)
    as (stem & ext & c & _ & _ & Hname & _).
  exists stem. exact Hname.
Defined.

(** X13: running the script again.  When a run succeeded and a second
    run with the same command line on the resulting files succeeds too, and
    the output path is not the input path, the second run writes the same
    text at the output path and the first run's output is kept, with that
    same text, under the backup name of the smallest number not yet taken. *)
Theorem rerun_backs_up_previous_output `{tk : Toolkit}
    (cl : CommandLine) (rnd1 rnd2 : RandomState)
    (env1 env2 : Os.environment) (fs : Os.fsys) :
  let path := output_fname (cl_output cl)
                (OsPath.splitext (cl_structure cl)).1 in
  let o1 := main cl rnd1 env1 fs in
  let fs1 := w_files (final_state o1) in
  let o2 := main cl rnd2 env2 fs1 in
  path ≠ cl_structure cl →
  running o1 →
  running o2 →
  ∃ out n,
    fs1 !! path = Some (Os.File out)
    ∧ w_files (final_state o2) !! path = Some (Os.File out)
    ∧ (1 ≤ n)%N
    ∧ (∀ m, (1 ≤ m < n)%N → Os.isfile fs1 (backup_name path m) = true)
    ∧ fs1 !! backup_name path n = None
    ∧ w_files (final_state o2) !! backup_name path n = Some (Os.File out).
Proof.
  intros path o1 fs1 o2 Hne Hrun1 Hrun2. subst o2 fs1 o1.
  destruct (main cl rnd1 env1 fs) as [g9| | |] eqn:Hmain1; try done.
  clear Hrun1. simpl final_state in *.
  destruct (main cl rnd2 env2 (w_files g9)) as [h9| | |] eqn:Hmain2; try done.
  clear Hrun2. simpl final_state.
  apply main_running in Hmain1 as (g8 & Hg8 & Hgw).
  apply main_running in Hmain2 as (h8 & Hh8 & Hhw).
  apply run_to_line_130 in Hg8
    as (k & text & s & ff & m' & r & Hk & Htext & Hparse & Hff & Hadd
        & Hm & _ & Hname & Hfs).
  apply run_to_line_130 in Hh8
    as (k2 & text2 & s2 & ff2 & m2 & r2 & Hk2 & Htext2 & Hparse2 & Hff2
        & Hadd2 & Hm2 & _ & Hname2 & Hfs2).
  fold path in Hname, Hname2.
  (* the input is where it was *)
  assert (Hinput : w_files g9 !! cl_structure cl = Some (Os.File text)).
  { rewrite <- Hfs in Htext.
    destruct (stmt_write_keeps_every_file g8 _ _ Htext) as [_ Hkept].
    rewrite Hgw in Hkept. simpl in Hkept.
    destruct Hkept as [?|[Hclash _]]; [done|].
    rewrite Hname in Hclash. by injection Hclash. }
  (* so the second run computes what the first did *)
  assert (text2 = text) as -> by congruence.
  assert (k2 = k) as -> by congruence.
  assert (s2 = s) as -> by congruence.
  assert (ff2 = ff) as -> by congruence.
  simpl in Hadd, Hadd2. assert (m2 = m') as -> by congruence.
  apply stmt_write_running_files in Hgw
    as (p1 & m1 & out & fs1' & Hp1 & _ & Hm1 & Hout & _ & Hfiles1).
  apply stmt_write_running_files in Hhw
    as (p2 & m3 & out2 & fs2' & Hp2 & Hget2 & Hm3 & Hout2 & _ & Hfiles2).
  assert (p1 = path) as -> by congruence.
  assert (p2 = path) as -> by congruence.
  assert (m1 = m') as -> by congruence.
  assert (m3 = m') as -> by congruence.
  assert (out2 = out) as -> by congruence.
  assert (Hprev : w_files g9 !! path = Some (Os.File out)).
  { rewrite Hfiles1. apply lookup_insert_eq. }
  rewrite Hfs2 in Hget2.
  apply get_filename_ok in Hget2 as (_ & _ & _ & _ & Hold).
  destruct (Hold out Hprev) as (n & Hle & Hbelow & Hnone & Hbackup & _).
  exists out, n. rewrite Hfiles2.
  split_and!; [done | apply lookup_insert_eq | done.. |].
  rewrite lookup_insert_ne; [done|]. apply not_eq_sym, backup_name_ne.
Qed.

Lemma rerun_backs_up_previous_output_witness :
  let cl := Toy.command_line "in.pdb" (Some "bar") None in
  let o1 := @main Toy.toolkit cl 0 Inputs.no_env Inputs.flat_fs in
  let o2 := @main Toy.toolkit cl 7 Inputs.slurm_env (w_files (final_state o1)) in
  ∃ out n,
    w_files (final_state o2) !! "bar.cif" = Some (Os.File out)
    ∧ w_files (final_state o2) !! backup_name "bar.cif" n = Some (Os.File out).
Proof.
  intros cl o1 o2.
  destruct (rerun_backs_up_previous_output (tk := Toy.toolkit)
              cl 0 7 Inputs.no_env Inputs.slurm_env Inputs.flat_fs)
    as (out & n & _ & Hnew & _ & _ & _ & Hold);
    [discriminate | exact I | exact I |].
  exists out, n. split; [exact Hnew | exact Hold].
Defined.

(** X14: [get_filename] asks [os.path.isfile], so a directory at the
    output path counts as free: the path is returned with nothing renamed,
    and the run then ends at [open] with [IsADirectoryError], the file
    system unchanged. *)
Theorem directory_at_output_path `{tk : Toolkit}
    (cl : CommandLine) (rnd : RandomState) (env : Os.environment)
    (fs : Os.fsys) :
  let path := output_fname (cl_output cl)
                (OsPath.splitext (cl_structure cl)).1 in
  running (state_after 8 (initial cl rnd env fs)) →
  fs !! path = Some Os.Dir →
  Os.parent_error fs path = None →
  get_filename fs path = Ok (path, fs)
  ∧ ∃ g, main cl rnd env fs = Raised IsADirectoryError g
         ∧ g_cif_fname g = Some path
         ∧ w_files g = fs.
Proof.
  intros path Hrun Hdir Hparent.
  assert (Hfree : get_filename fs path = Ok (path, fs)).
  { apply get_filename_absent. unfold Os.isfile. by rewrite Hdir. }
  split; [done|].
  destruct (state_after 8 _) as [g8| | |] eqn:H8; try done. clear Hrun.
  rewrite main_from_line_130, H8.
  apply run_to_line_130 in H8
    as (k & text & s & ff & m' & r & _ & _ & _ & _ & _ & _ & _ & Hname & Hfs).
  fold path in Hname. unfold stmt_write. rewrite Hname, Hfs, Hfree. simpl.
  unfold Os.open_w. rewrite Hparent, Hdir.
  rewrite (truthy_ne path) by apply output_fname_nonempty. simpl.
  eexists. split; [reflexivity|]. done.
Qed.

Lemma directory_at_output_path_witness :
  ∃ g, @main Toy.toolkit (Toy.command_line "in.pdb" (Some "bar") None)
         0 Inputs.no_env MoreInputs.dir_fs = Raised IsADirectoryError g
       ∧ w_files g = MoreInputs.dir_fs.
Proof.
  destruct (directory_at_output_path (tk := Toy.toolkit)
              (Toy.command_line "in.pdb" (Some "bar") None)
              0 Inputs.no_env MoreInputs.dir_fs I)
    as (_ & g & Hg & _ & Hfs); [reflexivity | reflexivity |].
  exists g. split; [exact Hg | exact Hfs].
Defined.

Section SplitextMore.

Lemma rfind_from_app (c : ascii) (a b : string) (i last : Z) :
  Py.rfind_from c (a +:+ b) i last
  = Py.rfind_from c b (i + Z.of_nat (String.length a)) (Py.rfind_from c a i last).
Proof.
  revert i last. induction a as [|x a IH]; intros i last.
  - simpl. by rewrite Z.add_0_r.
  - rewrite str_app_cons. simpl. rewrite IH. f_equal. lia.
Qed.

Lemma rfind_from_bound (c : ascii) (s : string) (i last bound : Z) :
  last ≤ bound →
  i + Z.of_nat (String.length s) ≤ bound + 1 →
  Py.rfind_from c s i last ≤ bound.
Proof.
  revert i last. induction s as [|x s IH]; intros i last Hlast Hlen; simpl.
  - done.
  - simpl in Hlen. apply IH; [|lia]. destruct (Ascii.eqb x c); lia.
Qed.

(** A path whose last component holds no dot has no extension, whatever
    dots the directories before it hold. *)
Lemma splitext_no_dot (pre base : string) :
  pre = "" ∨ (∃ d, pre = d +:+ "/") →
  has_char "." base = false →
  has_char "/" base = false →
  OsPath.splitext (pre +:+ base) = (pre +:+ base, "").
Proof.
  intros Hpre Hdot Hslash. unfold OsPath.splitext, Py.rfind.
  rewrite !rfind_from_app.
  rewrite (rfind_from_absent "/" base), (rfind_from_absent "." base) by done.
  replace (Py.rfind_from "/" pre 0 (-1) <? Py.rfind_from "." pre 0 (-1))
    with false; [done|].
  symmetry. apply Z.ltb_ge.
  destruct Hpre as [->|[d ->]]; [done|].
  rewrite !rfind_from_app. simpl.
  apply rfind_from_bound; lia.
Qed.

End SplitextMore.

(** X15: only the last component of the structure path is looked at for
    the extension: a path whose last component holds no dot has none, even
    when a directory before it is named like [run.pdb]; the script logs the
    format error and exits with status 1, the file system unchanged. *)
Theorem path_without_dot_in_last_component_is_rejected `{tk : Toolkit}
    (cl : CommandLine) (rnd : RandomState) (env : Os.environment)
    (fs : Os.fsys) (pre base : string) :
  platform_resolves cl →
  cl_structure cl = pre +:+ base →
  pre = "" ∨ (∃ d, pre = d +:+ "/") →
  has_char "." base = false →
  has_char "/" base = false →
  OsPath.splitext (cl_structure cl) = (cl_structure cl, "")
  ∧ ∃ g, main cl rnd env fs = Exited 1 g
         ∧ last (w_trace g) = Some (Log ERROR format_error)
         ∧ w_files g = fs.
Proof.
  intros Hres Hpath Hpre Hdot Hslash.
  assert (Hsplit : OsPath.splitext (cl_structure cl) = (cl_structure cl, "")).
  { rewrite Hpath. by apply splitext_no_dot. }
  split; [done|].
  destruct (run_to_format cl rnd env fs Hres)
    as (g4 & H4 & Hc & _ & _ & _ & Hfs & _).
  assert (Hs : structure (g_cmd g4) = cl_structure cl).
  { unfold cli_fields in Hc. by injection Hc as -> _ _ _. }
  unfold main, state_after in *.
  change script with (take 4 script ++ [stmt_format] ++ drop 5 script).
  rewrite exec_app, H4. simpl. unfold stmt_format. rewrite Hs, Hsplit. simpl.
  eexists. split; [reflexivity|]. simpl. split; [|done].
  by rewrite last_snoc.
Qed.

Lemma path_without_dot_in_last_component_is_rejected_witness :
  ∃ g, @main Toy.toolkit (Toy.command_line "run.pdb/in" None None)
         0 Inputs.no_env Inputs.flat_fs = Exited 1 g
       ∧ w_files g = Inputs.flat_fs.
Proof.
  destruct (path_without_dot_in_last_component_is_rejected (tk := Toy.toolkit)
              (Toy.command_line "run.pdb/in" None None)
              0 Inputs.no_env Inputs.flat_fs "run.pdb/" "in" I eq_refl)
    as (_ & g & Hg & _ & Hfs);
    [right; exists "run.pdb"; reflexivity | reflexivity | reflexivity |].
  exists g. split; [exact Hg | exact Hfs].
Defined.

(** X16: when the output path is the structure path itself (as with
    [foo.cif --output foo]), a successful run moves the input file, with its
    content, to the first free backup name (that of the smallest number
    whose backup name was not a file) and writes the result in its place:
    the text the writer gives for the modeller that [addHydrogens] returned
    for the stripped structure parsed from the input. *)
Theorem output_over_input_keeps_input_as_backup `{tk : Toolkit}
    (cl : CommandLine) (rnd : RandomState) (env : Os.environment)
    (fs : Os.fsys) :
  let o := main cl rnd env fs in
  output_fname (cl_output cl) (OsPath.splitext (cl_structure cl)).1
  = cl_structure cl →
  running o →
  ∃ k text s ff m' r out n,
    fs !! cl_structure cl = Some (Os.File text)
    ∧ select_parser (OsPath.splitext (cl_structure cl)).2 = Some k
    ∧ parse k text = inr s
    ∧ load_forcefield (default "amber99sbildn.xml" (cl_forcefield cl)) = inr ff
    ∧ (let m := Build_Modeller (s_topology s) (s_positions s) in
       addHydrogens ff pH_7_0 (Modeller_delete (hydrogens_of m) m)
         (random_seed (default 917 (cl_seed cl))) = inr (m', r))
    ∧ writeFile (topology m') (positions m') = inr out
    ∧ (1 ≤ n)%N
    ∧ (∀ m, (1 ≤ m < n)%N →
            Os.isfile fs (backup_name (cl_structure cl) m) = true)
    ∧ fs !! backup_name (cl_structure cl) n = None
    ∧ w_files (final_state o) !! backup_name (cl_structure cl) n
      = Some (Os.File text)
    ∧ g_cif_fname (final_state o) = Some (cl_structure cl)
    ∧ w_files (final_state o) !! cl_structure cl = Some (Os.File out).
Proof.
  intros o Hsame Hrun. subst o.
  destruct (main cl rnd env fs) as [g9| | |] eqn:Hmain; try done. clear Hrun.
  apply main_running in Hmain as (g8 & H8 & Hw).
  apply run_to_line_130 in H8
    as (k & text & s & ff & m' & r & Hk & Htext & Hparse & Hff & Hadd
        & Hm & _ & Hname & Hfs).
  rewrite Hsame in Hname.
  apply stmt_write_running_files in Hw
    as (p & m & out & fs1 & Hp & Hget & Hm1 & Hout & Hcif & Hfiles).
  assert (p = cl_structure cl) as -> by congruence.
  assert (m = m') as -> by congruence.
  rewrite Hfs in Hget.
  apply get_filename_ok in Hget as (_ & _ & _ & _ & Hold).
  destruct (Hold text Htext) as (n & Hle & Hbelow & Hnone & Hbackup & _).
  exists k, text, s, ff, m', r, out, n. simpl. rewrite Hfiles.
  split_and!; [done..| |done|apply lookup_insert_eq].
  rewrite lookup_insert_ne; [done|]. apply not_eq_sym, backup_name_ne.
Qed.

Lemma output_over_input_keeps_input_as_backup_witness :
  let o := @main Toy.toolkit (Toy.command_line "bar.cif" (Some "bar") None)
             0 Inputs.no_env Inputs.flat_fs in
  ∃ n, w_files (final_state o) !! backup_name "bar.cif" n = Some (Os.File "old").
Proof.
  intros o.
  destruct (output_over_input_keeps_input_as_backup (tk := Toy.toolkit)
              (Toy.command_line "bar.cif" (Some "bar") None)
              0 Inputs.no_env Inputs.flat_fs eq_refl I)
    as (k & text & s & ff & m' & r & out & n & Htext & _ & _ & _ & _ & _
        & _ & _ & _ & Hbackup & _).
  exists n. injection Htext as <-. exact Hbackup.
Defined.
